(** * jobs_report: the analytics layer of the weekly job-postings report

    A shallow embedding of [jobs_report.py] and the properties of its
    helpers ([seasonal_means], [pct_point_change]) and analysis routines
    ([compute_breadth], [identify_leaders_laggards], [sector_long_view],
    [build_summary]).

    Modelling conventions.
    - A calendar date is its proleptic Gregorian ordinal (what Python's
      [date.toordinal] returns), so [today - pd.Timedelta(days=7)] is
      [today - 7].
    - Index levels are exact rationals ([Q]); a float that pandas may
      leave undefined (the mean of an empty selection) is an [fval],
      either [Num q] or [NaN].
    - A data frame is the list of its rows in frame order; every row
      carries its row label, which is what [df.index] enumerates.
    - Python exceptions are the [Raise] branch of [result]. *)

From Stdlib Require Import String List ZArith QArith Bool Lia Permutation.
From Stdlib Require Import Sorting.Sorted.
Import ListNotations.

Local Open Scope Z_scope.

(** ** Exceptions *)

Inductive exn : Type :=
| IndexError       (* positional access past the end: [.iat[0]], [.iloc[0]] *)
| IndexingError    (* boolean mask that does not fit the indexed object *)
| AttributeError.  (* method looked up on an object that lacks it *)

Inductive result (A : Type) : Type :=
| Ok (a : A)
| Raise (e : exn).

Arguments Ok {A} a.
Arguments Raise {A} e.

Definition bind {A B : Type} (m : result A) (k : A -> result B) : result B :=
  match m with
  | Ok a => k a
  | Raise e => Raise e
  end.

Notation "x <- m ;; k" := (bind m (fun x => k))
  (at level 61, m at next level, right associativity).
Notation "' pat <- m ;; k" := (bind m (fun x => match x with pat => k end))
  (at level 61, pat pattern, m at next level, right associativity).

(** ** Dates *)

Definition date : Type := Z.

Definition is_leap (y : Z) : bool :=
  (y mod 4 =? 0) && (negb (y mod 100 =? 0) || (y mod 400 =? 0)).

Definition days_before_year (y : Z) : Z :=
  let p := y - 1 in p * 365 + p / 4 - p / 100 + p / 400.

Definition days_before_month (y m : Z) : Z :=
  nth (Z.to_nat (m - 1)) [0; 31; 59; 90; 120; 151; 181; 212; 243; 273; 304; 334] 0
  + (if (2 <? m) && is_leap y then 1 else 0).

(** [dt.date(y, m, d)], as its ordinal. *)
Definition dt_date (y m d : Z) : date :=
  days_before_year y + days_before_month y m + d.

(** ** Floats that may be undefined *)

Inductive fval : Type :=
| Num (q : Q)
| NaN.

Definition fmul (x : fval) (k : Q) : fval :=
  match x with
  | Num q => Num (q * k)
  | NaN => NaN
  end.

Definition Qsum (l : list Q) : Q := fold_right Qplus 0%Q l.

Definition Qlen {A : Type} (l : list A) : Q := inject_Z (Z.of_nat (length l)).

(** [pd.Series.mean] over floats: the mean of no value at all is NaN.
    The sum and the quotient are exact here; the rounding and the
    overflow of binary64 are not modelled, so nothing below bounds the
    size of a returned mean. *)
Definition series_mean (l : list Q) : fval :=
  match l with
  | [] => NaN
  | _ :: _ => Num (Qsum l / Qlen l)
  end.

(** [pd.Series.mean] over booleans: the fraction of [True]. *)
Definition bool_mean (l : list bool) : fval :=
  match l with
  | [] => NaN
  | _ :: _ => Num (Qlen (filter (fun b => b) l) / Qlen l)
  end.

(** ** Python dictionaries with string keys, in insertion order *)

Definition dict (V : Type) : Type := list (string * V).

Fixpoint dict_get {V : Type} (d : dict V) (k : string) : option V :=
  match d with
  | [] => None
  | (k', v) :: rest => if String.eqb k' k then Some v else dict_get rest k
  end.

(** [d[k] = v]: replaces the value of a present key in place, appends a new key. *)
Fixpoint dict_set {V : Type} (d : dict V) (k : string) (v : V) : dict V :=
  match d with
  | [] => [(k, v)]
  | (k', v') :: rest =>
      if String.eqb k' k then (k', v) :: rest else (k', v') :: dict_set rest k v
  end.

(** ** Config *)

Definition season_table : Type := dict (date * date).

Definition SEASONS : season_table :=
  [ ("Summer 2024"%string,    (dt_date 2024 6 21,  dt_date 2024 9 20));
    ("Fall 2024"%string,      (dt_date 2024 9 21,  dt_date 2024 12 20));
    ("Winter 2024-25"%string, (dt_date 2024 12 21, dt_date 2025 3 19));
    ("Spring 2025"%string,    (dt_date 2025 3 20,  dt_date 2025 6 20)) ].

(** ** Data frames *)

(** A row of the sector frame: its row label and the columns
    [date], [sector] and [index]. *)
Record sector_row : Type := mk_sector_row {
  s_label  : Z;
  s_date   : date;
  s_sector : string;
  s_index  : Q
}.

(** A row of the aggregate frame after [fetch_aggregate]: columns
    [date] and [value]. *)
Record agg_row : Type := mk_agg_row {
  a_label : Z;
  a_date  : date;
  a_value : Q
}.

Definition sector_frame : Type := list sector_row.
Definition agg_frame : Type := list agg_row.

(** What [seasonal_means] is handed as [series]: a float column
    ([pd.Series]) or the row labels of a frame ([pd.Index]).  Both can be
    indexed by a boolean mask; only the former has a [mean] method. *)
Inductive column : Type :=
| Series (values : list Q)
| Index (labels : list Z).

Definition column_length (c : column) : nat :=
  match c with
  | Series v => length v
  | Index l => length l
  end.

(** Positional selection of the entries whose mask bit is set. *)
Fixpoint select {A : Type} (l : list A) (mask : list bool) : list A :=
  match l, mask with
  | x :: l', b :: mask' => if b then x :: select l' mask' else select l' mask'
  | _, _ => []
  end.

(** [series[mask]].  The two columns passed by this program always come
    from one frame, so the mask lines up position by position; a mask of
    another length is refused. *)
Definition getitem_mask (c : column) (mask : list bool) : result column :=
  if Nat.eqb (column_length c) (length mask) then
    match c with
    | Series v => Ok (Series (select v mask))
    | Index l => Ok (Index (select l mask))
    end
  else
    match c with
    | Series _ => Raise IndexingError
    | Index _ => Raise IndexError
    end.

(** [c.mean()]. *)
Definition column_mean (c : column) : result fval :=
  match c with
  | Series v => Ok (series_mean v)
  | Index _ => Raise AttributeError
  end.

(** ** Helpers *)

(** [(d >= start) & (d <= end)] *)
Definition in_window (w : date * date) (d : date) : bool :=
  (fst w <=? d) && (d <=? snd w).

Definition mask_any (mask : list bool) : bool := existsb (fun b => b) mask.

(** The loop of [seasonal_means] over the items of a season table,
    threading the dictionary [out]. *)
Fixpoint seasonal_loop (seasons : season_table) (series : column)
    (dates : list date) (out : dict fval) : result (dict fval) :=
  match seasons with
  | [] => Ok out
  | (name, w) :: rest =>
      let mask := map (in_window w) dates in
      if mask_any mask then
        sel <- getitem_mask series mask ;;
        m <- column_mean sel ;;
        seasonal_loop rest series dates (dict_set out name m)
      else seasonal_loop rest series dates out
  end.

(** [seasonal_means], for the season table the module global holds. *)
Definition seasonal_means_in (seasons : season_table) (series : column)
    (dates : list date) : result (dict fval) :=
  seasonal_loop seasons series dates [].

Definition seasonal_means (series : column) (dates : list date)
    : result (dict fval) :=
  seasonal_means_in SEASONS series dates.

Definition pct_point_change (new old : Q) : Q := new - old.

(** ** Frame operations *)

(** [df[df.date == d]]: the rows dated [d], in frame order, labels kept. *)
Definition date_is (df : sector_frame) (d : date) : sector_frame :=
  filter (fun r => s_date r =? d) df.

(** [sector_df[sector_df.sector == name]] *)
Definition sector_is (df : sector_frame) (name : string) : sector_frame :=
  filter (fun r => String.eqb (s_sector r) name) df.

(** A row of [left.merge(right, on="sector", suffixes=("_new", "_old"))]. *)
Record merged_row : Type := mk_merged_row {
  m_sector  : string;
  date_new  : date;
  index_new : Q;
  date_old  : date;
  index_old : Q
}.

Definition join_rows (l r : sector_row) : merged_row :=
  {| m_sector := s_sector l;
     date_new := s_date l; index_new := s_index l;
     date_old := s_date r; index_old := s_index r |}.

(** The inner join on [sector]: every left row, in order, with each
    right row of the same sector. *)
Definition merge (left right : sector_frame) : list merged_row :=
  flat_map
    (fun l => map (join_rows l)
                  (filter (fun r => String.eqb (s_sector r) (s_sector l)) right))
    left.

(** [.iat[0]] and [.iloc[0]] *)
Definition iat0 {A : Type} (l : list A) : result A :=
  match l with
  | [] => Raise IndexError
  | x :: _ => Ok x
  end.

(** [index_new > index_old] *)
Definition is_gain (g : merged_row) : bool :=
  negb (Qle_bool (index_new g) (index_old g)).

(** ** Analysis *)

Definition compute_breadth (sector_df : sector_frame) (today : date)
    : result (fval * nat) :=
  let last_week := today - 7 in
  let gains := merge (date_is sector_df today) (date_is sector_df last_week) in
  let pct := fmul (bool_mean (map is_gain gains)) 100 in
  Ok (pct, length gains).

(** [sort_values] orders the rows by an argsort of the key column.  Its
    default algorithm is not stable, so which of several equal keys
    comes first is left to the sorting routine: the routine is a
    parameter, known only to return the positions [0 .. n-1] arranged
    so that the keys are in order. *)
Definition key_le (ascending : bool) (a b : Q) : Prop :=
  if ascending then (a <= b)%Q else (b <= a)%Q.

Record Sorter : Type := mk_Sorter {
  argsort : bool -> list Q -> list nat;
  argsort_perm : forall ascending keys,
    Permutation (argsort ascending keys) (seq 0 (length keys));
  argsort_sorted : forall ascending keys,
    StronglySorted (key_le ascending)
      (map (fun i => nth i keys 0%Q) (argsort ascending keys))
}.

(** Rows at the given positions, in that order. *)
Definition take {A : Type} (rows : list A) (positions : list nat) : list A :=
  flat_map (fun i => match nth_error rows i with
                     | Some r => [r]
                     | None => []
                     end) positions.

(** The merged frame with its [delta_pp] column. *)
Record delta_row : Type := mk_delta_row {
  pair     : merged_row;
  delta_pp : Q
}.

Definition with_delta (g : merged_row) : delta_row :=
  {| pair := g; delta_pp := index_new g - index_old g |}.

(** [merged.sort_values("delta_pp", ascending=...)] *)
Definition sort_values (S : Sorter) (ascending : bool) (merged : list delta_row)
    : list delta_row :=
  take merged (argsort S ascending (map delta_pp merged)).

Definition identify_leaders_laggards (S : Sorter) (sector_df : sector_frame)
    (today : date) : result (delta_row * delta_row) :=
  let last_week := today - 7 in
  let latest := date_is sector_df today in
  let prior := date_is sector_df last_week in
  let merged := map with_delta (merge latest prior) in
  leader <- iat0 (sort_values S false merged) ;;
  laggard <- iat0 (sort_values S true merged) ;;
  Ok (leader, laggard).

Definition sector_long_view (sector_df : sector_frame) (sector_name : string)
    (today : date) : result (Q * Q * dict fval) :=
  let df := sector_is sector_df sector_name in
  let one_month_ago := today - 28 in
  current <- iat0 (map s_index (date_is df today)) ;;
  prev_month <- iat0 (map s_index (date_is df one_month_ago)) ;;
  seasonal <- seasonal_means (Index (map s_label df)) (map s_date df) ;;
  let delta_month := pct_point_change current prev_month in
  Ok (current, delta_month, seasonal).

(** [agg_df.date.max()]; [None] stands for [NaT], the maximum of no date. *)
Definition date_max (dates : list date) : option date :=
  match dates with
  | [] => None
  | d :: rest => Some (fold_left Z.max rest d)
  end.

(** [agg_df.loc[agg_df.date == d, "value"]] *)
Definition value_on (agg_df : agg_frame) (d : date) : list Q :=
  map a_value (filter (fun r => a_date r =? d) agg_df).

(** The values [build_summary] interpolates into its report text. *)
Record Summary : Type := mk_Summary {
  sm_today        : date;
  sm_latest       : Q;
  sm_delta_pp     : Q;
  sm_delta_month  : Q;
  sm_breadth_pct  : fval;
  sm_n_sector     : nat;
  sm_nat_seasonal : dict fval;
  sm_leader       : delta_row;
  sm_lead_view    : Q * Q * dict fval;
  sm_laggard      : delta_row;
  sm_lag_view     : Q * Q * dict fval
}.

(** [build_summary], up to the rendering of the values as text.  On an
    empty aggregate frame [today] is [NaT], which equals no date, so the
    first lookup finds no row. *)
Definition build_summary (S : Sorter) (agg_df : agg_frame)
    (sector_df : sector_frame) : result Summary :=
  match date_max (map a_date agg_df) with
  | None => Raise IndexError
  | Some today =>
      let last_week := today - 7 in
      let one_month_ago := today - 28 in
      latest <- iat0 (value_on agg_df today) ;;
      prior <- iat0 (value_on agg_df last_week) ;;
      prev_month <- iat0 (value_on agg_df one_month_ago) ;;
      let delta_pp := pct_point_change latest prior in
      let delta_month := pct_point_change latest prev_month in
      '(breadth_pct, n_sector) <- compute_breadth sector_df today ;;
      nat_seasonal <- seasonal_means (Series (map a_value agg_df))
                                     (map a_date agg_df) ;;
      '(leader, laggard) <- identify_leaders_laggards S sector_df today ;;
      lead_view <- sector_long_view sector_df (m_sector (pair leader)) today ;;
      lag_view <- sector_long_view sector_df (m_sector (pair laggard)) today ;;
      Ok {| sm_today := today; sm_latest := latest;
            sm_delta_pp := delta_pp; sm_delta_month := delta_month;
            sm_breadth_pct := breadth_pct; sm_n_sector := n_sector;
            sm_nat_seasonal := nat_seasonal;
            sm_leader := leader; sm_lead_view := lead_view;
            sm_laggard := laggard; sm_lag_view := lag_view |}
  end.

(** ** A stable sorting routine, one admissible [Sorter] *)

Definition key_leb (ascending : bool) (a b : Q) : bool :=
  if ascending then Qle_bool a b else Qle_bool b a.

Fixpoint insert_key (ascending : bool) (x : Q * nat) (l : list (Q * nat))
    : list (Q * nat) :=
  match l with
  | [] => [x]
  | y :: l' =>
      if key_leb ascending (fst x) (fst y) then x :: l
      else y :: insert_key ascending x l'
  end.

Fixpoint isort (ascending : bool) (l : list (Q * nat)) : list (Q * nat) :=
  match l with
  | [] => []
  | x :: l' => insert_key ascending x (isort ascending l')
  end.

Definition stable_argsort (ascending : bool) (keys : list Q) : list nat :=
  map snd (isort ascending (combine keys (seq 0 (length keys)))).

(** ** The vocabulary of the specification *)

(** A time series as the specification has it: (date, value) points. *)
Definition time_series : Type := list (date * Q).

Definition arith_mean (values : list Q) : Q := Qsum values / Qlen values.

(** The points of a series whose date lies in the closed window. *)
Definition window_points (w : date * date) (pts : time_series) : time_series :=
  filter (fun p => (fst w <=? fst p) && (fst p <=? snd w)) pts.

(** The sector has an observation on the date. *)
Definition has_obs (df : sector_frame) (name : string) (d : date) : bool :=
  existsb (fun r => String.eqb (s_sector r) name && (s_date r =? d)) df.

Definition sector_names (df : sector_frame) : list string :=
  nodup string_dec (map s_sector df).

(** The sectors observed both on [today] and a week before. *)
Definition aligned_sectors (df : sector_frame) (today : date) : list string :=
  filter (fun name => has_obs df name today && has_obs df name (today - 7))
         (sector_names df).

(** The sector's level on a date. *)
Definition level_on (df : sector_frame) (name : string) (d : date) : option Q :=
  match date_is (sector_is df name) d with
  | [] => None
  | r :: _ => Some (s_index r)
  end.

(** The sector's level rose strictly over the week. *)
Definition expanded (df : sector_frame) (today : date) (name : string) : bool :=
  match level_on df name today, level_on df name (today - 7) with
  | Some new, Some old => negb (Qle_bool new old)
  | _, _ => false
  end.

(** The data-model invariant of a sector series: per sector, no date twice. *)
Definition unique_dates (df : sector_frame) : Prop :=
  NoDup (map (fun r => (s_sector r, s_date r)) df).

(** An observation, apart from the row label it is stored under. *)
Definition obs (r : sector_row) : date * string * Q :=
  (s_date r, s_sector r, s_index r).

(** The observations of a frame dated [today] or a week before. *)
Definition obs_of_week (df : sector_frame) (today : date)
    : list (date * string * Q) :=
  map obs (filter (fun r => (s_date r =? today) || (s_date r =? today - 7)) df).

(** The aligned today/last-week pairs both analysis routines build. *)
Definition week_pairs (df : sector_frame) (today : date) : list merged_row :=
  merge (date_is df today) (date_is df (today - 7)).

(** The share, in percent, of [k] expanding pairs among [n]. *)
Definition breadth_of (k n : nat) : fval :=
  match n with
  | O => NaN
  | S _ => Num (inject_Z (Z.of_nat k) / inject_Z (Z.of_nat n) * 100)
  end.


(** The row an observation makes under label 0. *)
Definition relabel (o : date * string * Q) : sector_row :=
  {| s_label := 0; s_date := fst (fst o); s_sector := snd (fst o); s_index := snd o |}.

(** ** Sample frames *)





(** A run past every season window, so that no seasonal mean is asked
    of the sector frame's row labels. *)
Definition national_august : agg_frame :=
  [ {| a_label := 0; a_date := dt_date 2025 7 4;  a_value := 101 |};
    {| a_label := 1; a_date := dt_date 2025 7 25; a_value := 103 |};
    {| a_label := 2; a_date := dt_date 2025 8 1;  a_value := 105 |} ].

Definition sectors_august : sector_frame :=
  [ {| s_label := 0; s_date := dt_date 2025 7 4;  s_sector := "Retail"; s_index := 33 |};
    {| s_label := 1; s_date := dt_date 2025 7 25; s_sector := "Retail"; s_index := 35 |};
    {| s_label := 2; s_date := dt_date 2025 8 1;  s_sector := "Retail"; s_index := 30 |};
    {| s_label := 3; s_date := dt_date 2025 7 4;  s_sector := "Tech";   s_index := 38 |};
    {| s_label := 4; s_date := dt_date 2025 7 25; s_sector := "Tech";   s_index := 40 |};
    {| s_label := 5; s_date := dt_date 2025 8 1;  s_sector := "Tech";   s_index := 50 |} ].


(** Scenario A of the specification: the national series at 105 on
    2025-05-01, 103 a week before and 101 four weeks before, with two
    sectors observed on the same three dates. *)
Definition scenario_a_national : agg_frame :=
  [ {| a_label := 0; a_date := dt_date 2025 4 3;  a_value := 101 |};
    {| a_label := 1; a_date := dt_date 2025 4 24; a_value := 103 |};
    {| a_label := 2; a_date := dt_date 2025 5 1;  a_value := 105 |} ].

Definition scenario_a_sectors : sector_frame :=
  [ {| s_label := 0; s_date := dt_date 2025 4 3;  s_sector := "Retail"; s_index := 33 |};
    {| s_label := 1; s_date := dt_date 2025 4 24; s_sector := "Retail"; s_index := 35 |};
    {| s_label := 2; s_date := dt_date 2025 5 1;  s_sector := "Retail"; s_index := 30 |};
    {| s_label := 3; s_date := dt_date 2025 4 3;  s_sector := "Tech";   s_index := 38 |};
    {| s_label := 4; s_date := dt_date 2025 4 24; s_sector := "Tech";   s_index := 40 |};
    {| s_label := 5; s_date := dt_date 2025 5 1;  s_sector := "Tech";   s_index := 50 |} ].

(** * Properties *)

(** ** seasonal_means *)

Lemma dict_get_set {V : Type} (d : dict V) (k k' : string) (v : V) :
  dict_get (dict_set d k v) k' =
  if String.eqb k k' then Some v else dict_get d k'.
Proof.
  induction d as [|[k0 v0] d IH]; simpl.
  - reflexivity.
  - destruct (String.eqb k0 k) eqn:E0; simpl.
    + apply String.eqb_eq in E0; subst k0.
      destruct (String.eqb k k'); reflexivity.
    + destruct (String.eqb k0 k') eqn:E1.
      * apply String.eqb_eq in E1; subst k0.
        rewrite String.eqb_sym, E0. reflexivity.
      * exact IH.
Qed.

Lemma dict_get_absent {V : Type} (d : dict V) (k : string) :
  ~ In k (map fst d) -> dict_get d k = None.
Proof.
  induction d as [|[k0 v0] d IH]; simpl; intros H.
  - reflexivity.
  - destruct (String.eqb k0 k) eqn:E.
    + apply String.eqb_eq in E. tauto.
    + apply IH. tauto.
Qed.

Lemma dict_get_present {V : Type} (d : dict V) (k : string) (v : V) :
  NoDup (map fst d) -> In (k, v) d -> dict_get d k = Some v.
Proof.
  induction d as [|[k0 v0] d IH]; simpl; intros ND H.
  - contradiction.
  - inversion ND as [|? ? Hnin ND']; subst.
    destruct H as [H|H].
    + inversion H; subst. rewrite String.eqb_refl. reflexivity.
    + destruct (String.eqb k0 k) eqn:E.
      * apply String.eqb_eq in E; subst k0.
        exfalso. apply Hnin. apply (in_map fst) in H. exact H.
      * apply IH; assumption.
Qed.

Lemma select_window (w : date * date) (pts : time_series) :
  select (map snd pts) (map (in_window w) (map fst pts)) =
  map snd (window_points w pts).
Proof.
  unfold window_points.
  induction pts as [|p pts IH]; cbn [map select filter].
  - reflexivity.
  - change ((fst w <=? fst p) && (fst p <=? snd w)) with (in_window w (fst p)).
    destruct (in_window w (fst p)); cbn [map]; rewrite IH; reflexivity.
Qed.

Lemma mask_any_window (w : date * date) (pts : time_series) :
  mask_any (map (in_window w) (map fst pts)) =
  match window_points w pts with [] => false | _ :: _ => true end.
Proof.
  unfold window_points, mask_any.
  induction pts as [|p pts IH]; cbn [map existsb filter].
  - reflexivity.
  - change ((fst w <=? fst p) && (fst p <=? snd w)) with (in_window w (fst p)).
    destruct (in_window w (fst p)); cbn [orb].
    + reflexivity.
    + exact IH.
Qed.

Lemma seasonal_loop_no_dates (seasons : season_table) (c : column) (out : dict fval) :
  seasonal_loop seasons c [] out = Ok out.
Proof.
  induction seasons as [|[name w] rest IH]; simpl.
  - reflexivity.
  - exact IH.
Qed.

(** What the loop leaves in the dictionary when it is run on a float
    column and the dates of the same points. *)
Lemma seasonal_loop_series (seasons : season_table) (pts : time_series) :
  NoDup (map fst seasons) ->
  forall out,
  exists out',
    seasonal_loop seasons (Series (map snd pts)) (map fst pts) out = Ok out' /\
    forall name,
      dict_get out' name =
      match dict_get seasons name with
      | Some w =>
          match window_points w pts with
          | [] => dict_get out name
          | sel => Some (Num (arith_mean (map snd sel)))
          end
      | None => dict_get out name
      end.
Proof.
  induction seasons as [|[n0 w0] rest IH]; intros ND out; simpl.
  - exists out. split; reflexivity.
  - inversion ND as [|? ? Hnin ND']; subst.
    rewrite mask_any_window.
    destruct (window_points w0 pts) as [|p sel] eqn:Hsel.
    + destruct (IH ND' out) as [out' [Hrun Hget]].
      exists out'. split; [exact Hrun|].
      intros name. rewrite Hget.
      destruct (String.eqb n0 name) eqn:E; [|reflexivity].
      apply String.eqb_eq in E; subst name.
      rewrite (dict_get_absent rest n0 Hnin), Hsel. reflexivity.
    + unfold getitem_mask. simpl column_length.
      rewrite !length_map, Nat.eqb_refl. simpl bind.
      rewrite select_window, Hsel.
      destruct (IH ND' (dict_set out n0 (series_mean (map snd (p :: sel)))))
        as [out' [Hrun Hget]].
      exists out'. split; [exact Hrun|].
      intros name. rewrite Hget, dict_get_set.
      destruct (String.eqb n0 name) eqn:E.
      * apply String.eqb_eq in E; subst name.
        rewrite (dict_get_absent rest n0 Hnin), Hsel. reflexivity.
      * reflexivity.
Qed.

(** C3. For every series of points and every season table (a
    dictionary, so no name twice), [seasonal_means] returns a mapping in
    which each season with at least one point dated inside its closed
    window has the arithmetic mean of the values of those points, each
    season whose window holds no point is absent, no other name is
    present, and which is empty when the series is empty. *)
Theorem seasonal_means_spec (seasons : season_table) (pts : time_series) :
  NoDup (map fst seasons) ->
  exists out,
    seasonal_means_in seasons (Series (map snd pts)) (map fst pts) = Ok out /\
    (forall name w, In (name, w) seasons ->
       dict_get out name =
       match window_points w pts with
       | [] => None
       | sel => Some (Num (arith_mean (map snd sel)))
       end) /\
    (forall name, ~ In name (map fst seasons) -> dict_get out name = None) /\
    (pts = [] -> out = []).
Proof.
  intros ND. unfold seasonal_means_in.
  destruct (seasonal_loop_series seasons pts ND []) as [out [Hrun Hget]].
  exists out. split; [exact Hrun|]. split; [|split].
  - intros name w Hin. rewrite Hget, (dict_get_present seasons name w ND Hin).
    reflexivity.
  - intros name Hnin. rewrite Hget, (dict_get_absent seasons name Hnin).
    reflexivity.
  - intros ->. simpl in Hrun. rewrite seasonal_loop_no_dates in Hrun.
    inversion Hrun. reflexivity.
Qed.

Lemma SEASONS_names_distinct : NoDup (map fst SEASONS).
Proof.
  repeat (constructor; [simpl; intuition discriminate|]). constructor.
Defined.

Lemma seasonal_means_spec_witness :
  exists out,
    seasonal_means_in SEASONS
      (Series (map snd [(dt_date 2025 5 1, 50%Q); (dt_date 2024 7 4, 40%Q)]))
      (map fst [(dt_date 2025 5 1, 50%Q); (dt_date 2024 7 4, 40%Q)]) = Ok out /\
    (forall name w, In (name, w) SEASONS ->
       dict_get out name =
       match window_points w [(dt_date 2025 5 1, 50%Q); (dt_date 2024 7 4, 40%Q)] with
       | [] => None
       | sel => Some (Num (arith_mean (map snd sel)))
       end) /\
    (forall name, ~ In name (map fst SEASONS) -> dict_get out name = None) /\
    ([(dt_date 2025 5 1, 50%Q); (dt_date 2024 7 4, 40%Q)] = [] -> out = []).
Proof.
  apply (seasonal_means_spec SEASONS
           [(dt_date 2025 5 1, 50%Q); (dt_date 2024 7 4, 40%Q)]).
  exact SEASONS_names_distinct.
Defined.

(** ** pct_point_change *)

(** C4. [pct_point_change a b] is [a - b], and swapping the arguments
    negates it. *)
Theorem pct_point_change_antisym (a b : Q) :
  pct_point_change a b = (a - b)%Q /\
  (pct_point_change a b == - pct_point_change b a)%Q.
Proof.
  split.
  - reflexivity.
  - unfold pct_point_change. ring.
Qed.

(** ** Lists, joins and counts *)

Lemma filter_perm {A : Type} (f : A -> bool) (l l' : list A) :
  Permutation l l' -> Permutation (filter f l) (filter f l').
Proof.
  induction 1 as [|x l l' _ IH|x y l|l l' l'' _ IH1 _ IH2]; simpl.
  - constructor.
  - destruct (f x); [constructor|]; exact IH.
  - destruct (f x), (f y); try reflexivity. constructor.
  - etransitivity; eassumption.
Qed.

Lemma flat_map_perm {A B : Type} (f g : A -> list B) (l l' : list A) :
  (forall x, Permutation (f x) (g x)) ->
  Permutation l l' -> Permutation (flat_map f l) (flat_map g l').
Proof.
  intros Hfg. induction 1 as [|x l l' _ IH|x y l|l l' l'' _ IH1 H2 IH2]; simpl.
  - constructor.
  - apply Permutation_app; [apply Hfg|exact IH].
  - rewrite !app_assoc. apply Permutation_app.
    + etransitivity; [apply Permutation_app_comm|].
      apply Permutation_app; apply Hfg.
    + induction l as [|z l IHl]; simpl; [constructor|].
      apply Permutation_app; [apply Hfg|exact IHl].
  - etransitivity; [exact IH1|].
    etransitivity; [|exact IH2].
    clear - Hfg. induction l' as [|z l' IHl]; simpl; [constructor|].
    apply Permutation_app; [symmetry; apply Hfg|exact IHl].
Qed.

Lemma merge_perm (l l' r r' : sector_frame) :
  Permutation l l' -> Permutation r r' ->
  Permutation (merge l r) (merge l' r').
Proof.
  intros Hl Hr. unfold merge. apply flat_map_perm; [|exact Hl].
  intros x. apply Permutation_map, filter_perm, Hr.
Qed.

Lemma in_merge (g : merged_row) (l r : sector_frame) :
  In g (merge l r) <->
  exists a b, In a l /\ In b r /\ s_sector b = s_sector a /\ g = join_rows a b.
Proof.
  unfold merge. rewrite in_flat_map. split.
  - intros [a [Ha Hg]]. apply in_map_iff in Hg. destruct Hg as [b [Hg Hb]].
    apply filter_In in Hb. destruct Hb as [Hb E]. apply String.eqb_eq in E.
    exists a, b. auto.
  - intros [a [b [Ha [Hb [E Hg]]]]]. exists a. split; [exact Ha|].
    apply in_map_iff. exists b. split; [auto|].
    apply filter_In. split; [exact Hb|]. apply String.eqb_eq. exact E.
Qed.

Lemma in_date_is (r : sector_row) (df : sector_frame) (d : date) :
  In r (date_is df d) <-> In r df /\ s_date r = d.
Proof.
  unfold date_is. rewrite filter_In, Z.eqb_eq. reflexivity.
Qed.

Lemma has_obs_true (df : sector_frame) (name : string) (d : date) :
  has_obs df name d = true <->
  exists r, In r df /\ s_sector r = name /\ s_date r = d.
Proof.
  unfold has_obs. rewrite existsb_exists. split.
  - intros [r [Hin H]]. apply andb_true_iff in H. destruct H as [H1 H2].
    apply String.eqb_eq in H1. apply Z.eqb_eq in H2. exists r. auto.
  - intros [r [Hin [H1 H2]]]. exists r. split; [exact Hin|].
    apply andb_true_iff. split; [apply String.eqb_eq|apply Z.eqb_eq]; assumption.
Qed.

Lemma in_aligned_sectors (df : sector_frame) (today : date) (name : string) :
  In name (aligned_sectors df today) <->
  has_obs df name today = true /\ has_obs df name (today - 7) = true.
Proof.
  unfold aligned_sectors, sector_names.
  rewrite filter_In, nodup_In, andb_true_iff. split.
  - tauto.
  - intros [H1 H2]. split; [|tauto].
    apply has_obs_true in H1. destruct H1 as [r [Hin [Hs _]]].
    subst name. apply in_map. exact Hin.
Qed.

Lemma in_week_pairs (g : merged_row) (df : sector_frame) (today : date) :
  In g (week_pairs df today) <->
  exists a b, In a df /\ s_date a = today /\ In b df /\ s_date b = today - 7 /\
              s_sector b = s_sector a /\ g = join_rows a b.
Proof.
  unfold week_pairs. rewrite in_merge. split.
  - intros [a [b [Ha [Hb [E Hg]]]]]. apply in_date_is in Ha, Hb.
    exists a, b. tauto.
  - intros [a [b [Ha [Da [Hb [Db [E Hg]]]]]]]. exists a, b.
    rewrite !in_date_is. tauto.
Qed.

Lemma week_pairs_aligned (g : merged_row) (df : sector_frame) (today : date) :
  In g (week_pairs df today) -> In (m_sector g) (aligned_sectors df today).
Proof.
  intros H. apply in_week_pairs in H.
  destruct H as [a [b [Ha [Da [Hb [Db [E Hg]]]]]]]. subst g. simpl.
  apply in_aligned_sectors. split; apply has_obs_true.
  - exists a. auto.
  - exists b. auto.
Qed.

Lemma aligned_week_pairs (name : string) (df : sector_frame) (today : date) :
  In name (aligned_sectors df today) ->
  exists g, In g (week_pairs df today) /\ m_sector g = name.
Proof.
  intros H. apply in_aligned_sectors in H. destruct H as [H1 H2].
  apply has_obs_true in H1, H2.
  destruct H1 as [a [Ha [Sa Da]]]. destruct H2 as [b [Hb [Sb Db]]].
  exists (join_rows a b). split; [|exact Sa].
  apply in_week_pairs. exists a, b. repeat split; try assumption. congruence.
Qed.

Lemma count_true_map {A : Type} (f : A -> bool) (l : list A) :
  length (filter (fun b => b) (map f l)) = length (filter f l).
Proof.
  induction l as [|x l IH]; simpl.
  - reflexivity.
  - destruct (f x); simpl; rewrite IH; reflexivity.
Qed.

(** [compute_breadth] through its two counts. *)
Lemma compute_breadth_counts (df : sector_frame) (today : date) :
  compute_breadth df today =
  Ok (breadth_of (length (filter is_gain (week_pairs df today)))
                 (length (week_pairs df today)),
      length (week_pairs df today)).
Proof.
  unfold compute_breadth. fold (week_pairs df today).
  destruct (week_pairs df today) as [|g gains] eqn:E.
  - reflexivity.
  - unfold bool_mean, breadth_of, Qlen.
    rewrite count_true_map, length_map. reflexivity.
Qed.

(** ** compute_breadth *)

Lemma no_aligned_no_pairs (df : sector_frame) (today : date) :
  aligned_sectors df today = [] -> week_pairs df today = [].
Proof.
  intros H. destruct (week_pairs df today) as [|g gains] eqn:E; [reflexivity|].
  assert (Hin : In g (week_pairs df today)) by (rewrite E; left; reflexivity).
  apply week_pairs_aligned in Hin. rewrite H in Hin. contradiction.
Qed.

(** C2, as the code has it.  When no sector is observed on both dates,
    [compute_breadth] raises nothing: it returns zero compared sectors
    together with an undefined (NaN) breadth. *)
Theorem compute_breadth_no_pairs (df : sector_frame) (today : date) :
  aligned_sectors df today = [] ->
  compute_breadth df today = Ok (NaN, 0%nat).
Proof.
  intros H. rewrite compute_breadth_counts, (no_aligned_no_pairs df today H).
  reflexivity.
Qed.

Lemma compute_breadth_no_pairs_witness :
  compute_breadth
    [ {| s_label := 0; s_date := dt_date 2025 5 1;
         s_sector := "Tech"; s_index := 50 |} ]
    (dt_date 2025 5 1) = Ok (NaN, 0%nat).
Proof.
  apply (compute_breadth_no_pairs
           [ {| s_label := 0; s_date := dt_date 2025 5 1;
                s_sector := "Tech"; s_index := 50 |} ]
           (dt_date 2025 5 1)).
  reflexivity.
Defined.

(** C2, as stated, fails: a frame whose only sector is observed today
    but not a week before has no aligned pair, and [compute_breadth]
    returns an undefined breadth instead of raising. *)
Lemma compute_breadth_no_error :
  aligned_sectors
    [ {| s_label := 0; s_date := dt_date 2025 5 1;
         s_sector := "Tech"; s_index := 50 |} ]
    (dt_date 2025 5 1) = [] /\
  ~ (exists e,
       compute_breadth
         [ {| s_label := 0; s_date := dt_date 2025 5 1;
              s_sector := "Tech"; s_index := 50 |} ]
         (dt_date 2025 5 1) = Raise e).
Proof.
  split.
  - reflexivity.
  - intros [e H]. discriminate H.
Qed.

(** Under the invariant, the rows of one date name each sector once. *)
Lemma unique_dates_sectors (df : sector_frame) (d : date) :
  unique_dates df -> NoDup (map s_sector (date_is df d)).
Proof.
  unfold unique_dates. induction df as [|r df IH]; simpl; intros ND.
  - constructor.
  - inversion ND as [|? ? Hnin ND']; subst.
    destruct (s_date r =? d) eqn:E; simpl.
    + apply Z.eqb_eq in E. constructor; [|apply IH; exact ND'].
      intros Hin. apply in_map_iff in Hin. destruct Hin as [r' [Hs Hr']].
      apply in_date_is in Hr'. destruct Hr' as [Hr' Hd].
      apply Hnin. apply in_map_iff. exists r'. split; [|exact Hr'].
      congruence.
    + apply IH. exact ND'.
Qed.

Lemma filter_sector_unique (rows : sector_frame) (name : string) :
  NoDup (map s_sector rows) ->
  (length (filter (fun r => String.eqb (s_sector r) name) rows) <= 1)%nat.
Proof.
  induction rows as [|r rows IH]; simpl; intros ND.
  - lia.
  - inversion ND as [|? ? Hnin ND']; subst.
    destruct (String.eqb (s_sector r) name) eqn:E; simpl.
    + apply String.eqb_eq in E.
      destruct (filter (fun r0 => String.eqb (s_sector r0) name) rows)
        as [|r' rest] eqn:F; simpl; [lia|].
      exfalso. apply Hnin.
      assert (Hin : In r' (filter (fun r0 => String.eqb (s_sector r0) name) rows))
        by (rewrite F; left; reflexivity).
      apply filter_In in Hin. destruct Hin as [Hin Hs].
      apply String.eqb_eq in Hs. rewrite E, <- Hs. apply in_map. exact Hin.
    + apply IH. exact ND'.
Qed.

Lemma merge_sectors_NoDup (l r : sector_frame) :
  NoDup (map s_sector l) -> NoDup (map s_sector r) ->
  NoDup (map m_sector (merge l r)).
Proof.
  intros NDl NDr. induction l as [|a l IH]; simpl.
  - constructor.
  - inversion NDl as [|? ? Hnin NDl']; subst.
    rewrite map_app. apply NoDup_app.
    + pose proof (filter_sector_unique r (s_sector a) NDr) as Hle.
      destruct (filter (fun r0 => String.eqb (s_sector r0) (s_sector a)) r)
        as [|b [|b' rest]]; simpl in *.
      * constructor.
      * constructor; [simpl; tauto|constructor].
      * lia.
    + apply IH. exact NDl'.
    + intros name H1 H2. apply in_map_iff in H1. destruct H1 as [g [Hg H1]].
      apply in_map_iff in H1. destruct H1 as [b [Hb _]]. subst g name. simpl in H2.
      apply in_map_iff in H2. destruct H2 as [g [Hg H2]].
      apply in_merge in H2. destruct H2 as [a' [b' [Ha' [_ [_ Hg']]]]].
      subst g. simpl in Hg. apply Hnin. rewrite <- Hg. apply in_map. exact Ha'.
Qed.

(** Under the invariant, the aligned pairs are the aligned sectors. *)
Lemma week_pairs_sectors (df : sector_frame) (today : date) :
  unique_dates df ->
  Permutation (map m_sector (week_pairs df today)) (aligned_sectors df today).
Proof.
  intros U. apply NoDup_Permutation.
  - apply merge_sectors_NoDup; apply unique_dates_sectors; exact U.
  - apply NoDup_filter, NoDup_nodup.
  - intros name. split.
    + intros H. apply in_map_iff in H. destruct H as [g [Hg H]]. subst name.
      apply week_pairs_aligned. exact H.
    + intros H. apply aligned_week_pairs in H. destruct H as [g [Hg Hs]].
      subst name. apply in_map. exact Hg.
Qed.

Lemma level_on_unique (df : sector_frame) (r : sector_row) :
  unique_dates df -> In r df ->
  level_on df (s_sector r) (s_date r) = Some (s_index r).
Proof.
  unfold unique_dates, level_on, date_is, sector_is.
  induction df as [|r0 df IH]; simpl; intros ND Hin.
  - contradiction.
  - inversion ND as [|? ? Hnin ND']; subst.
    destruct (String.eqb (s_sector r0) (s_sector r)) eqn:Es; simpl.
    + destruct (s_date r0 =? s_date r) eqn:Ed; simpl.
      * apply String.eqb_eq in Es. apply Z.eqb_eq in Ed.
        destruct Hin as [Hin|Hin]; [subst; reflexivity|].
        exfalso. apply Hnin. rewrite Es, Ed.
        apply (in_map (fun r => (s_sector r, s_date r))) in Hin. exact Hin.
      * destruct Hin as [Hin|Hin].
        -- subst r0. rewrite Z.eqb_refl in Ed. discriminate.
        -- apply IH; assumption.
    + destruct Hin as [Hin|Hin].
      * subst r0. rewrite String.eqb_refl in Es. discriminate.
      * apply IH; assumption.
Qed.

Lemma is_gain_expanded (df : sector_frame) (today : date) (g : merged_row) :
  unique_dates df -> In g (week_pairs df today) ->
  is_gain g = expanded df today (m_sector g).
Proof.
  intros U H. apply in_week_pairs in H.
  destruct H as [a [b [Ha [Da [Hb [Db [E Hg]]]]]]]. subst g.
  unfold expanded, is_gain. simpl.
  pose proof (level_on_unique df a U Ha) as La.
  pose proof (level_on_unique df b U Hb) as Lb.
  rewrite Da in La. rewrite Db, E in Lb. rewrite La, Lb. reflexivity.
Qed.

Lemma map_filter_agree {A B : Type} (h : A -> B) (f : A -> bool) (f' : B -> bool)
    (l : list A) :
  (forall x, In x l -> f x = f' (h x)) ->
  map h (filter f l) = filter f' (map h l).
Proof.
  induction l as [|x l IH]; simpl; intros H.
  - reflexivity.
  - rewrite <- (H x (or_introl eq_refl)).
    destruct (f x); simpl; rewrite IH; auto.
Qed.

Lemma gains_expanded (df : sector_frame) (today : date) :
  unique_dates df ->
  length (filter is_gain (week_pairs df today)) =
  length (filter (expanded df today) (aligned_sectors df today)).
Proof.
  intros U.
  rewrite <- (length_map m_sector (filter is_gain (week_pairs df today))).
  rewrite (map_filter_agree m_sector is_gain (expanded df today)).
  - apply Permutation_length, filter_perm, week_pairs_sectors. exact U.
  - intros g Hg. apply is_gain_expanded; assumption.
Qed.

(** Shares of a count, as rationals. *)

Lemma Qdiv_le_cross (a b c d : Q) :
  (0 < b -> 0 < d -> a * d <= c * b -> a / b <= c / d)%Q.
Proof.
  intros Hb Hd H. apply Qle_shift_div_r; [exact Hb|].
  assert (E : (c / d * b == c * b / d)%Q).
  { field. intros Z0. rewrite Z0 in Hd. apply (Qlt_irrefl 0). exact Hd. }
  rewrite E. apply Qle_shift_div_l; assumption.
Qed.

Lemma inject_nat_pos (n : nat) : (0 < n)%nat -> (0 < inject_Z (Z.of_nat n))%Q.
Proof.
  intros H. change 0%Q with (inject_Z 0). rewrite <- Zlt_Qlt. lia.
Qed.

Lemma share_le (k n k' n' : nat) :
  (0 < n)%nat -> (0 < n')%nat -> (k * n' <= k' * n)%nat ->
  (inject_Z (Z.of_nat k) / inject_Z (Z.of_nat n) * 100 <=
   inject_Z (Z.of_nat k') / inject_Z (Z.of_nat n') * 100)%Q.
Proof.
  intros Hn Hn' H. apply Qmult_le_compat_r; [|discriminate].
  apply Qdiv_le_cross; try (apply inject_nat_pos; assumption).
  rewrite <- !inject_Z_mult, <- Zle_Qle. lia.
Qed.

Lemma share_bounds (k n : nat) :
  (0 < n)%nat -> (k <= n)%nat ->
  (0 <= inject_Z (Z.of_nat k) / inject_Z (Z.of_nat n) * 100 /\
   inject_Z (Z.of_nat k) / inject_Z (Z.of_nat n) * 100 <= 100)%Q.
Proof.
  intros Hn Hk. split.
  - apply Qmult_le_0_compat; [|discriminate].
    apply Qle_shift_div_l; [apply inject_nat_pos; exact Hn|].
    rewrite Qmult_0_l. change 0%Q with (inject_Z 0). rewrite <- Zle_Qle. lia.
  - setoid_replace 100%Q with (1 * 100)%Q at 2 by ring.
    apply Qmult_le_compat_r; [|discriminate].
    apply Qle_shift_div_r; [apply inject_nat_pos; exact Hn|].
    rewrite Qmult_1_l, <- Zle_Qle. lia.
Qed.

Lemma filter_length_le {A : Type} (f : A -> bool) (l : list A) :
  (length (filter f l) <= length l)%nat.
Proof.
  induction l as [|x l IH]; simpl; [lia|]. destruct (f x); simpl; lia.
Qed.

(** C5. On a sector frame that keeps the invariant (per sector, no date
    twice) and has at least one sector observed on both dates,
    [compute_breadth] returns as [n_compared] the number of sectors
    observed on both the anchor date and the date seven days before,
    and as [breadth_pct] 100 times the number of those whose new level
    is strictly above the old one, divided by [n_compared]; that value
    lies between 0 and 100. *)
Theorem compute_breadth_spec (df : sector_frame) (today : date) :
  unique_dates df ->
  aligned_sectors df today <> [] ->
  exists p,
    compute_breadth df today =
      Ok (Num p, length (aligned_sectors df today)) /\
    (p == 100 * Qlen (filter (expanded df today) (aligned_sectors df today))
          / Qlen (aligned_sectors df today))%Q /\
    (0 <= p /\ p <= 100)%Q.
Proof.
  intros U Hne.
  rewrite compute_breadth_counts, (gains_expanded df today U).
  pose proof (Permutation_length (week_pairs_sectors df today U)) as Hlen.
  rewrite length_map in Hlen. rewrite Hlen.
  set (al := aligned_sectors df today) in *.
  set (ex := filter (expanded df today) al).
  assert (Hpos : (0 < length al)%nat).
  { destruct al; [congruence|simpl; lia]. }
  destruct (length al) as [|n] eqn:En; [lia|].
  unfold breadth_of. eexists. split; [reflexivity|]. split.
  - unfold Qlen. rewrite En. field.
    intros Z0. pose proof (inject_nat_pos (S n) Hpos) as P.
    rewrite Z0 in P. apply (Qlt_irrefl 0). exact P.
  - apply share_bounds; [lia|].
    rewrite <- En. apply filter_length_le.
Qed.

Lemma two_sector_frame_unique :
  unique_dates
    [ {| s_label := 0; s_date := dt_date 2025 4 24; s_sector := "Retail"; s_index := 35 |};
      {| s_label := 1; s_date := dt_date 2025 5 1;  s_sector := "Retail"; s_index := 30 |};
      {| s_label := 2; s_date := dt_date 2025 4 24; s_sector := "Tech";   s_index := 40 |};
      {| s_label := 3; s_date := dt_date 2025 5 1;  s_sector := "Tech";   s_index := 50 |} ].
Proof.
  unfold unique_dates.
  repeat (constructor; [simpl; intuition discriminate|]). constructor.
Defined.

Lemma compute_breadth_spec_witness :
  exists p,
    compute_breadth
      [ {| s_label := 0; s_date := dt_date 2025 4 24; s_sector := "Retail"; s_index := 35 |};
        {| s_label := 1; s_date := dt_date 2025 5 1;  s_sector := "Retail"; s_index := 30 |};
        {| s_label := 2; s_date := dt_date 2025 4 24; s_sector := "Tech";   s_index := 40 |};
        {| s_label := 3; s_date := dt_date 2025 5 1;  s_sector := "Tech";   s_index := 50 |} ]
      (dt_date 2025 5 1) = Ok (Num p, 2%nat) /\
    (p == 100 * inject_Z 1 / inject_Z 2)%Q /\
    (0 <= p /\ p <= 100)%Q.
Proof.
  apply (compute_breadth_spec
    [ {| s_label := 0; s_date := dt_date 2025 4 24; s_sector := "Retail"; s_index := 35 |};
      {| s_label := 1; s_date := dt_date 2025 5 1;  s_sector := "Retail"; s_index := 30 |};
      {| s_label := 2; s_date := dt_date 2025 4 24; s_sector := "Tech";   s_index := 40 |};
      {| s_label := 3; s_date := dt_date 2025 5 1;  s_sector := "Tech";   s_index := 50 |} ]
    (dt_date 2025 5 1)).
  - exact two_sector_frame_unique.
  - vm_compute. discriminate.
Defined.

Lemma filter_nil {A : Type} (f : A -> bool) (l : list A) :
  (forall x, In x l -> f x = false) -> filter f l = [].
Proof.
  induction l as [|x l IH]; simpl; intros H; [reflexivity|].
  rewrite (H x (or_introl eq_refl)). apply IH. intros y Hy. apply H. right. exact Hy.
Qed.

Lemma merge_right_skip (l r : sector_frame) (b : sector_row) :
  (forall a, In a l -> s_sector a <> s_sector b) ->
  merge l (b :: r) = merge l r.
Proof.
  unfold merge. induction l as [|a l IH]; simpl; intros H; [reflexivity|].
  destruct (String.eqb (s_sector b) (s_sector a)) eqn:E.
  - apply String.eqb_eq in E. exfalso. apply (H a (or_introl eq_refl)). auto.
  - f_equal. apply IH. intros a' Ha'. apply H. right. exact Ha'.
Qed.

Lemma merge_cons (a : sector_row) (l r : sector_frame) :
  merge (a :: l) r =
  map (join_rows a) (filter (fun b => String.eqb (s_sector b) (s_sector a)) r)
  ++ merge l r.
Proof. reflexivity. Qed.

Lemma date_is_app (l l' : sector_frame) (d : date) :
  date_is (l ++ l') d = date_is l d ++ date_is l' d.
Proof. apply filter_app. Qed.

(** Adding the series of a sector the frame does not know, observed
    once on each of the two dates, adds exactly its pair. *)
Lemma week_pairs_add_sector (df series : sector_frame) (today : date)
    (name : string) (rn ro : sector_row) :
  Forall (fun r => s_sector r = name) series ->
  ~ In name (map s_sector df) ->
  date_is series today = [rn] ->
  date_is series (today - 7) = [ro] ->
  week_pairs (series ++ df) today = join_rows rn ro :: week_pairs df today.
Proof.
  intros Hall Hnew Hn Ho. unfold week_pairs.
  rewrite !date_is_app, Hn, Ho. simpl app.
  assert (Sn : s_sector rn = name).
  { rewrite Forall_forall in Hall. apply Hall.
    assert (H : In rn (date_is series today)) by (rewrite Hn; left; reflexivity).
    apply in_date_is in H. tauto. }
  assert (So : s_sector ro = name).
  { rewrite Forall_forall in Hall. apply Hall.
    assert (H : In ro (date_is series (today - 7))) by (rewrite Ho; left; reflexivity).
    apply in_date_is in H. tauto. }
  rewrite merge_cons, merge_right_skip.
  - cbn [filter]. rewrite So, Sn, String.eqb_refl, filter_nil; [reflexivity|].
    intros b Hb. apply in_date_is in Hb.
    destruct (String.eqb (s_sector b) name) eqn:E; [|reflexivity].
    apply String.eqb_eq in E. exfalso. apply Hnew. rewrite <- E.
    apply in_map. tauto.
  - intros a Ha E. apply Hnew.
    apply in_date_is in Ha. rewrite <- So, <- E. apply in_map. tauto.
Qed.

Lemma week_pairs_perm (df df' : sector_frame) (today : date) :
  Permutation df df' ->
  Permutation (week_pairs df today) (week_pairs df' today).
Proof.
  intros H. unfold week_pairs, date_is. apply merge_perm; apply filter_perm; exact H.
Qed.

(** C6. Take a frame with at least one aligned pair and add, anywhere
    among its rows, the series of one more sector observed once on each
    of the two compared dates.  One more sector is compared; if its new
    level is strictly above its old one the breadth does not decrease,
    and if its new level is at most its old one the breadth does not
    increase. *)
Theorem compute_breadth_monotonic (df df' series : sector_frame)
    (today : date) (name : string) (rn ro : sector_row) :
  week_pairs df today <> [] ->
  Forall (fun r => s_sector r = name) series ->
  ~ In name (map s_sector df) ->
  date_is series today = [rn] ->
  date_is series (today - 7) = [ro] ->
  Permutation df' (series ++ df) ->
  exists p p' n,
    compute_breadth df today = Ok (Num p, n) /\
    compute_breadth df' today = Ok (Num p', S n) /\
    ((s_index ro < s_index rn)%Q -> (p <= p')%Q) /\
    ((s_index rn <= s_index ro)%Q -> (p' <= p)%Q).
Proof.
  intros Hne Hall Hnew Hn Ho Hperm.
  rewrite !compute_breadth_counts.
  pose proof (week_pairs_perm df' (series ++ df) today Hperm) as P.
  rewrite (week_pairs_add_sector df series today name rn ro Hall Hnew Hn Ho) in P.
  rewrite (Permutation_length P).
  rewrite (Permutation_length (filter_perm is_gain _ _ P)).
  set (pairs := week_pairs df today) in *.
  pose proof (filter_length_le is_gain pairs) as Hk.
  set (k := length (filter is_gain pairs)) in *.
  assert (Hpos : (0 < length pairs)%nat).
  { destruct pairs; [congruence|simpl; lia]. }
  cbn [filter length]. unfold is_gain at 1. cbn [join_rows index_new index_old].
  destruct (length pairs) as [|n] eqn:En; [lia|].
  unfold breadth_of.
  destruct (Qle_bool (s_index rn) (s_index ro)) eqn:Q; cbn [negb length];
    fold k; do 3 eexists; (split; [reflexivity|]); (split; [reflexivity|]); split.
  - intros Hlt. apply Qle_bool_iff in Q. exfalso.
    apply (Qlt_irrefl (s_index ro)). eapply Qlt_le_trans; eassumption.
  - intros _. apply share_le; lia.
  - intros _. apply share_le; lia.
  - intros Hle. apply Qle_bool_iff in Hle. rewrite Hle in Q. discriminate.
Qed.

Lemma compute_breadth_monotonic_witness :
  exists p p' n,
    compute_breadth
      [ {| s_label := 0; s_date := dt_date 2025 4 24; s_sector := "Retail"; s_index := 35 |};
        {| s_label := 1; s_date := dt_date 2025 5 1;  s_sector := "Retail"; s_index := 30 |} ]
      (dt_date 2025 5 1) = Ok (Num p, n) /\
    compute_breadth
      [ {| s_label := 0; s_date := dt_date 2025 4 24; s_sector := "Retail"; s_index := 35 |};
        {| s_label := 2; s_date := dt_date 2025 4 24; s_sector := "Tech";   s_index := 40 |};
        {| s_label := 1; s_date := dt_date 2025 5 1;  s_sector := "Retail"; s_index := 30 |};
        {| s_label := 3; s_date := dt_date 2025 5 1;  s_sector := "Tech";   s_index := 50 |} ]
      (dt_date 2025 5 1) = Ok (Num p', S n) /\
    ((40 < 50)%Q -> (p <= p')%Q) /\
    ((50 <= 40)%Q -> (p' <= p)%Q).
Proof.
  apply (compute_breadth_monotonic
    [ {| s_label := 0; s_date := dt_date 2025 4 24; s_sector := "Retail"; s_index := 35 |};
      {| s_label := 1; s_date := dt_date 2025 5 1;  s_sector := "Retail"; s_index := 30 |} ]
    [ {| s_label := 0; s_date := dt_date 2025 4 24; s_sector := "Retail"; s_index := 35 |};
      {| s_label := 2; s_date := dt_date 2025 4 24; s_sector := "Tech";   s_index := 40 |};
      {| s_label := 1; s_date := dt_date 2025 5 1;  s_sector := "Retail"; s_index := 30 |};
      {| s_label := 3; s_date := dt_date 2025 5 1;  s_sector := "Tech";   s_index := 50 |} ]
    [ {| s_label := 2; s_date := dt_date 2025 4 24; s_sector := "Tech";   s_index := 40 |};
      {| s_label := 3; s_date := dt_date 2025 5 1;  s_sector := "Tech";   s_index := 50 |} ]
    (dt_date 2025 5 1) "Tech"%string
    {| s_label := 3; s_date := dt_date 2025 5 1;  s_sector := "Tech";   s_index := 50 |}
    {| s_label := 2; s_date := dt_date 2025 4 24; s_sector := "Tech";   s_index := 40 |}).
  - vm_compute. discriminate.
  - repeat constructor.
  - simpl. intuition discriminate.
  - reflexivity.
  - reflexivity.
  - simpl. eapply perm_trans; [apply perm_swap|]. apply perm_skip.
    eapply perm_trans; [apply perm_skip, perm_swap|]. apply perm_swap.
Defined.

(** The join reads the observations only, not the row labels. *)
Lemma merge_relabel (l r : sector_frame) :
  merge l r = merge (map relabel (map obs l)) (map relabel (map obs r)).
Proof.
  induction l as [|a l IH]; [reflexivity|].
  cbn [map]. rewrite !merge_cons, <- IH. f_equal.
  clear IH. induction r as [|b r IHr]; [reflexivity|].
  cbn [map filter]. cbn [relabel obs s_sector fst snd] in *.
  destruct (String.eqb (s_sector b) (s_sector a)); cbn [map]; rewrite IHr; reflexivity.
Qed.

Lemma obs_date_is (df : sector_frame) (today d : date) :
  d = today \/ d = today - 7 ->
  map obs (date_is df d) =
  filter (fun o => fst (fst o) =? d) (obs_of_week df today).
Proof.
  intros Hd. unfold obs_of_week, date_is.
  induction df as [|r df IH]; [reflexivity|].
  cbn [filter].
  destruct (s_date r =? d) eqn:E.
  - assert (W : (s_date r =? today) || (s_date r =? today - 7) = true).
    { apply Z.eqb_eq in E. apply orb_true_iff.
      destruct Hd; subst d; [left|right]; apply Z.eqb_eq; exact E. }
    rewrite W. cbn [map filter obs fst]. rewrite E, IH. reflexivity.
  - destruct ((s_date r =? today) || (s_date r =? today - 7)).
    + cbn [map filter obs fst]. rewrite E. exact IH.
    + exact IH.
Qed.

(** C10. Two frames whose observations dated at the anchor date or
    seven days before are the same (in any order, under any row labels)
    give the same [compute_breadth] result, whatever they hold on other
    dates. *)
Theorem compute_breadth_week_only (df1 df2 : sector_frame) (today : date) :
  Permutation (obs_of_week df1 today) (obs_of_week df2 today) ->
  compute_breadth df1 today = compute_breadth df2 today.
Proof.
  intros H.
  assert (P : Permutation (week_pairs df1 today) (week_pairs df2 today)).
  { unfold week_pairs.
    rewrite (merge_relabel (date_is df1 today)), (merge_relabel (date_is df2 today)).
    rewrite !(obs_date_is _ today) by auto.
    apply merge_perm; apply Permutation_map, filter_perm, H. }
  rewrite !compute_breadth_counts.
  rewrite (Permutation_length P), (Permutation_length (filter_perm is_gain _ _ P)).
  reflexivity.
Qed.

Lemma compute_breadth_week_only_witness :
  compute_breadth
    [ {| s_label := 0; s_date := dt_date 2025 4 24; s_sector := "Tech"; s_index := 40 |};
      {| s_label := 1; s_date := dt_date 2025 5 1;  s_sector := "Tech"; s_index := 50 |} ]
    (dt_date 2025 5 1) =
  compute_breadth
    [ {| s_label := 7; s_date := dt_date 2025 5 1;  s_sector := "Tech"; s_index := 50 |};
      {| s_label := 8; s_date := dt_date 2025 4 3;  s_sector := "Tech"; s_index := 99 |};
      {| s_label := 9; s_date := dt_date 2025 4 24; s_sector := "Tech"; s_index := 40 |} ]
    (dt_date 2025 5 1).
Proof.
  apply (compute_breadth_week_only
    [ {| s_label := 0; s_date := dt_date 2025 4 24; s_sector := "Tech"; s_index := 40 |};
      {| s_label := 1; s_date := dt_date 2025 5 1;  s_sector := "Tech"; s_index := 50 |} ]
    [ {| s_label := 7; s_date := dt_date 2025 5 1;  s_sector := "Tech"; s_index := 50 |};
      {| s_label := 8; s_date := dt_date 2025 4 3;  s_sector := "Tech"; s_index := 99 |};
      {| s_label := 9; s_date := dt_date 2025 4 24; s_sector := "Tech"; s_index := 40 |} ]
    (dt_date 2025 5 1)).
  vm_compute. apply perm_swap.
Defined.

Lemma week_pairs_obs (df1 df2 : sector_frame) (today : date) :
  obs_of_week df1 today = obs_of_week df2 today ->
  week_pairs df1 today = week_pairs df2 today.
Proof.
  intros H. unfold week_pairs.
  rewrite (merge_relabel (date_is df1 today)), (merge_relabel (date_is df2 today)).
  rewrite !(obs_date_is _ today) by auto. rewrite H. reflexivity.
Qed.

(** ** Sorting *)

Lemma key_le_refl (ascending : bool) (a : Q) : key_le ascending a a.
Proof. destruct ascending; apply Qle_refl. Qed.

Lemma key_le_trans (ascending : bool) (a b c : Q) :
  key_le ascending a b -> key_le ascending b c -> key_le ascending a c.
Proof.
  destruct ascending; simpl; intros H1 H2.
  - eapply Qle_trans; eassumption.
  - eapply Qle_trans; eassumption.
Qed.

Lemma key_leb_true (ascending : bool) (a b : Q) :
  key_leb ascending a b = true -> key_le ascending a b.
Proof. destruct ascending; simpl; apply Qle_bool_imp_le. Qed.

Lemma key_leb_false (ascending : bool) (a b : Q) :
  key_leb ascending a b = false -> key_le ascending b a.
Proof.
  assert (T : forall x y, Qle_bool x y = false -> (y <= x)%Q).
  { intros x y H. destruct (Qlt_le_dec y x) as [L|L].
    - apply Qlt_le_weak. exact L.
    - apply Qle_bool_iff in L. congruence. }
  destruct ascending; simpl; apply T.
Qed.

Definition pair_le (ascending : bool) (x y : Q * nat) : Prop :=
  key_le ascending (fst x) (fst y).

Lemma insert_key_perm (ascending : bool) (x : Q * nat) (l : list (Q * nat)) :
  Permutation (insert_key ascending x l) (x :: l).
Proof.
  induction l as [|y l IH]; simpl.
  - apply Permutation_refl.
  - destruct (key_leb ascending (fst x) (fst y)).
    + apply Permutation_refl.
    + eapply perm_trans; [apply perm_skip, IH|apply perm_swap].
Qed.

Lemma isort_perm (ascending : bool) (l : list (Q * nat)) :
  Permutation (isort ascending l) l.
Proof.
  induction l as [|x l IH]; simpl.
  - constructor.
  - eapply perm_trans; [apply insert_key_perm|apply perm_skip, IH].
Qed.

Lemma insert_key_sorted (ascending : bool) (x : Q * nat) (l : list (Q * nat)) :
  StronglySorted (pair_le ascending) l ->
  StronglySorted (pair_le ascending) (insert_key ascending x l).
Proof.
  induction 1 as [|y l Hs IH Hy]; simpl.
  - constructor; constructor.
  - destruct (key_leb ascending (fst x) (fst y)) eqn:E.
    + apply key_leb_true in E. constructor.
      * constructor; assumption.
      * constructor; [exact E|].
        eapply Forall_impl; [|exact Hy].
        intros z Hz. eapply key_le_trans; eassumption.
    + apply key_leb_false in E. constructor; [exact IH|].
      eapply Permutation_Forall.
      * symmetry. apply insert_key_perm.
      * constructor; assumption.
Qed.

Lemma isort_sorted (ascending : bool) (l : list (Q * nat)) :
  StronglySorted (pair_le ascending) (isort ascending l).
Proof.
  induction l as [|x l IH]; simpl.
  - constructor.
  - apply insert_key_sorted, IH.
Qed.

Lemma combine_seq_snd {A : Type} (l : list A) (start : nat) :
  map snd (combine l (seq start (length l))) = seq start (length l).
Proof.
  revert start. induction l as [|x l IH]; intros start; simpl.
  - reflexivity.
  - rewrite IH. reflexivity.
Qed.

Lemma combine_seq_nth (keys : list Q) (start : nat) (k : Q) (i : nat) :
  In (k, i) (combine keys (seq start (length keys))) ->
  (start <= i)%nat /\ nth (i - start) keys 0%Q = k.
Proof.
  revert start. induction keys as [|k0 keys IH]; intros start; simpl.
  - contradiction.
  - intros [H|H].
    + inversion H; subst. rewrite Nat.sub_diag. split; [lia|reflexivity].
    + apply IH in H. destruct H as [Hle Hn]. split; [lia|].
      replace (i - start)%nat with (S (i - S start)) by lia. exact Hn.
Qed.

Lemma stable_argsort_perm (ascending : bool) (keys : list Q) :
  Permutation (stable_argsort ascending keys) (seq 0 (length keys)).
Proof.
  unfold stable_argsort. rewrite <- (combine_seq_snd keys 0) at 2.
  apply Permutation_map, isort_perm.
Qed.

Lemma stable_argsort_sorted (ascending : bool) (keys : list Q) :
  StronglySorted (key_le ascending)
    (map (fun i => nth i keys 0%Q) (stable_argsort ascending keys)).
Proof.
  unfold stable_argsort. rewrite map_map.
  rewrite (map_ext_in _ fst).
  - pose proof (isort_sorted ascending (combine keys (seq 0 (length keys)))) as H.
    induction H as [|x l Hs IH Hx]; simpl; constructor.
    + exact IH.
    + apply Forall_map. exact Hx.
  - intros [k i] Hin. simpl.
    apply (Permutation_in _ (isort_perm ascending _)) in Hin.
    apply combine_seq_nth in Hin. destruct Hin as [_ Hn].
    rewrite Nat.sub_0_r in Hn. exact Hn.
Qed.

(** The stable routine is a sorting routine. *)
Definition stable_sorter : Sorter :=
  {| argsort := stable_argsort;
     argsort_perm := stable_argsort_perm;
     argsort_sorted := stable_argsort_sorted |}.

(** ** identify_leaders_laggards *)

Lemma in_take {A : Type} (rows : list A) (positions : list nat) (x : A) :
  In x (take rows positions) <->
  exists i, In i positions /\ nth_error rows i = Some x.
Proof.
  unfold take. rewrite in_flat_map. split.
  - intros [i [Hi Hx]]. exists i. split; [exact Hi|].
    destruct (nth_error rows i) as [r|]; simpl in Hx; [|contradiction].
    destruct Hx as [Hx|[]]. congruence.
  - intros [i [Hi Hx]]. exists i. split; [exact Hi|].
    rewrite Hx. left. reflexivity.
Qed.

Lemma take_keys {A : Type} (key : A -> Q) (rows : list A) (positions : list nat) :
  (forall i, In i positions -> (i < length rows)%nat) ->
  map key (take rows positions) =
  map (fun i => nth i (map key rows) 0%Q) positions.
Proof.
  induction positions as [|i positions IH]; simpl; intros H.
  - reflexivity.
  - assert (Hi : (i < length rows)%nat) by (apply H; left; reflexivity).
    destruct (nth_error rows i) as [r|] eqn:E.
    + simpl. rewrite IH by (intros j Hj; apply H; right; exact Hj).
      f_equal. symmetry. apply nth_error_nth.
      rewrite nth_error_map, E. reflexivity.
    + apply nth_error_None in E. lia.
Qed.

Section AnySorter.

Variable S : Sorter.

Lemma argsort_in_range (ascending : bool) (keys : list Q) (i : nat) :
  In i (argsort S ascending keys) <-> (i < length keys)%nat.
Proof.
  split.
  - intros H. apply (Permutation_in _ (argsort_perm S ascending keys)) in H.
    apply in_seq in H. lia.
  - intros H. apply (Permutation_in _ (Permutation_sym (argsort_perm S ascending keys))).
    apply in_seq. lia.
Qed.

Lemma in_sort_values (ascending : bool) (merged : list delta_row)
    (x : delta_row) :
  In x (sort_values S ascending merged) <-> In x merged.
Proof.
  unfold sort_values. rewrite in_take. split.
  - intros [i [_ Hx]]. eapply nth_error_In. exact Hx.
  - intros H. apply In_nth_error in H. destruct H as [i Hi].
    exists i. split; [|exact Hi].
    apply argsort_in_range. rewrite length_map.
    apply nth_error_Some. congruence.
Qed.

Lemma sort_values_sorted (ascending : bool) (merged : list delta_row) :
  StronglySorted (key_le ascending)
    (map delta_pp (sort_values S ascending merged)).
Proof.
  unfold sort_values. rewrite take_keys.
  - apply argsort_sorted.
  - intros i Hi. apply argsort_in_range in Hi. rewrite length_map in Hi. exact Hi.
Qed.

(** The first row of the sorted frame is extreme among all rows. *)
Lemma sort_values_head (ascending : bool) (merged : list delta_row)
    (x : delta_row) (rest : list delta_row) :
  sort_values S ascending merged = x :: rest ->
  In x merged /\
  forall y, In y merged -> key_le ascending (delta_pp x) (delta_pp y).
Proof.
  intros E. split.
  - apply (in_sort_values ascending). rewrite E. left. reflexivity.
  - intros y Hy. apply (in_sort_values ascending) in Hy. rewrite E in Hy.
    pose proof (sort_values_sorted ascending merged) as Hs.
    rewrite E in Hs. simpl in Hs. apply StronglySorted_inv in Hs.
    destruct Hs as [_ Hall]. destruct Hy as [Hy|Hy].
    + subst y. apply key_le_refl.
    + rewrite Forall_forall in Hall. apply Hall. apply in_map. exact Hy.
Qed.

Lemma sort_values_nonempty (ascending : bool) (merged : list delta_row) :
  merged <> [] -> sort_values S ascending merged <> [].
Proof.
  intros Hne E. destruct merged as [|x merged]; [congruence|].
  assert (H : In x (sort_values S ascending (x :: merged))).
  { apply in_sort_values. left. reflexivity. }
  rewrite E in H. contradiction.
Qed.

Lemma argsort_first (ascending : bool) (keys : list Q) :
  keys <> [] ->
  exists i rest,
    argsort S ascending keys = i :: rest /\ (i < length keys)%nat.
Proof.
  intros Hne.
  destruct (argsort S ascending keys) as [|i rest] eqn:E.
  - pose proof (Permutation_length (argsort_perm S ascending keys)) as L.
    rewrite E, length_seq in L. destruct keys; [congruence|discriminate L].
  - exists i, rest. split; [reflexivity|].
    apply (argsort_in_range ascending). rewrite E. left. reflexivity.
Qed.

(** The first row of the sorted frame is the row at the first position
    of the argsort of the delta column. *)
Lemma sort_values_at (ascending : bool) (merged : list delta_row) (i : nat)
    (x : delta_row) :
  hd_error (argsort S ascending (map delta_pp merged)) = Some i ->
  nth_error merged i = Some x ->
  iat0 (sort_values S ascending merged) = Ok x.
Proof.
  intros Hi Hx. unfold sort_values, take.
  destruct (argsort S ascending (map delta_pp merged)) as [|i0 rest];
    [discriminate|].
  simpl in Hi. inversion Hi; subst i0. cbn [flat_map]. rewrite Hx. reflexivity.
Qed.


(** The positions of the leader and of the laggard, read off the delta
    column alone. *)
Lemma identify_positions (merged : list delta_row) :
  merged <> [] ->
  exists i j leader laggard,
    hd_error (argsort S false (map delta_pp merged)) = Some i /\
    hd_error (argsort S true (map delta_pp merged)) = Some j /\
    nth_error merged i = Some leader /\
    nth_error merged j = Some laggard.
Proof.
  intros Hne.
  assert (Hk : map delta_pp merged <> [])
    by (destruct merged; [congruence|discriminate]).
  destruct (argsort_first false _ Hk) as [i [r1 [E1 L1]]].
  destruct (argsort_first true _ Hk) as [j [r2 [E2 L2]]].
  rewrite length_map in L1, L2.
  destruct (nth_error merged i) as [leader|] eqn:N1;
    [|apply nth_error_None in N1; lia].
  destruct (nth_error merged j) as [laggard|] eqn:N2;
    [|apply nth_error_None in N2; lia].
  exists i, j, leader, laggard. rewrite E1, E2. auto.
Qed.

Lemma identify_at (df : sector_frame) (today : date) (i j : nat)
    (leader laggard : delta_row) :
  hd_error (argsort S false (map delta_pp (map with_delta (week_pairs df today))))
    = Some i ->
  hd_error (argsort S true (map delta_pp (map with_delta (week_pairs df today))))
    = Some j ->
  nth_error (map with_delta (week_pairs df today)) i = Some leader ->
  nth_error (map with_delta (week_pairs df today)) j = Some laggard ->
  identify_leaders_laggards S df today = Ok (leader, laggard).
Proof.
  intros Hi Hj Ni Nj. unfold identify_leaders_laggards.
  fold (week_pairs df today).
  rewrite (sort_values_at false _ i leader Hi Ni).
  rewrite (sort_values_at true _ j laggard Hj Nj). reflexivity.
Qed.


End AnySorter.




(** ** sector_long_view *)

Lemma seasonal_loop_index (seasons : season_table) (labels : list Z)
    (dates : list date) (out out' : dict fval) :
  seasonal_loop seasons (Index labels) dates out = Ok out' -> out' = out.
Proof.
  revert out. induction seasons as [|[name w] rest IH]; intros out; simpl.
  - intros H. inversion H. reflexivity.
  - destruct (mask_any (map (in_window w) dates)).
    + unfold getitem_mask.
      destruct (Nat.eqb (column_length (Index labels))
                        (length (map (in_window w) dates)));
        simpl; intros H; discriminate H.
    + apply IH.
Qed.

(** Whenever [sector_long_view] returns, its seasonal mapping is empty:
    the means are asked of the row labels, which have no mean. *)
Lemma sector_long_view_seasonal_empty (df : sector_frame) (name : string)
    (today : date) (current delta_month : Q) (seasonal : dict fval) :
  sector_long_view df name today = Ok (current, delta_month, seasonal) ->
  seasonal = [].
Proof.
  unfold sector_long_view.
  destruct (iat0 (map s_index (date_is (sector_is df name) today))); simpl;
    [|discriminate].
  destruct (iat0 (map s_index (date_is (sector_is df name) (today - 28)))); simpl;
    [|discriminate].
  destruct (seasonal_means (Index (map s_label (sector_is df name)))
                           (map s_date (sector_is df name))) as [out|e] eqn:E;
    simpl; [|discriminate].
  intros H. inversion H; subst.
  apply (seasonal_loop_index _ _ _ _ _ E).
Qed.

(** C1 fails on the code.  For a sector observed at 40 on 2025-04-03 and
    at 50 on 2025-05-01 (both inside "Spring 2025"), [seasonal_means]
    over the sector's levels and dates gives a Spring mean of 45, but
    [sector_long_view] hands it the frame's row labels ([df.index])
    instead of the [index] column and ends in an AttributeError. *)
Theorem sector_long_view_seasonal_bug :
  sector_long_view
    [ {| s_label := 0; s_date := dt_date 2025 4 3; s_sector := "Tech"; s_index := 40 |};
      {| s_label := 1; s_date := dt_date 2025 5 1; s_sector := "Tech"; s_index := 50 |} ]
    "Tech" (dt_date 2025 5 1) = Raise AttributeError /\
  seasonal_means (Series [40%Q; 50%Q]) [dt_date 2025 4 3; dt_date 2025 5 1] =
    Ok [("Spring 2025"%string, Num (90 # 2))].
Proof.
  split; reflexivity.
Qed.

Lemma no_obs_no_row (df : sector_frame) (name : string) (d : date) :
  has_obs df name d = false -> date_is (sector_is df name) d = [].
Proof.
  intros H. apply filter_nil. intros r Hr.
  apply filter_In in Hr. destruct Hr as [Hr Hs]. apply String.eqb_eq in Hs.
  destruct (s_date r =? d) eqn:E; [|reflexivity].
  apply Z.eqb_eq in E.
  assert (T : has_obs df name d = true) by (apply has_obs_true; exists r; auto).
  congruence.
Qed.

Lemma sector_long_view_no_obs (df : sector_frame) (name : string) (today : date) :
  has_obs df name today = false \/ has_obs df name (today - 28) = false ->
  sector_long_view df name today = Raise IndexError.
Proof.
  intros H. unfold sector_long_view.
  destruct (has_obs df name today) eqn:E0.
  - destruct H as [H|H]; [discriminate|].
    rewrite (no_obs_no_row df name (today - 28) H).
    destruct (iat0 (map s_index (date_is (sector_is df name) today))) as [c|e] eqn:E.
    + reflexivity.
    + destruct (date_is (sector_is df name) today); simpl in E; inversion E.
      reflexivity.
  - rewrite (no_obs_no_row df name today E0). reflexivity.
Qed.

(** ** build_summary *)

(** C9. A sector with no observation at the anchor date, or none 28
    days before it, makes [sector_long_view] fail with the error of the
    missing row, never a record with a defaulted level; and when that
    sector is the leader or the laggard of the run, [build_summary]
    fails too. *)
Theorem sector_long_view_missing (S : Sorter) (agg_df : agg_frame)
    (sector_df : sector_frame) (name : string) (today : date)
    (leader laggard : delta_row) :
  has_obs sector_df name today = false \/
  has_obs sector_df name (today - 28) = false ->
  sector_long_view sector_df name today = Raise IndexError /\
  (date_max (map a_date agg_df) = Some today ->
   identify_leaders_laggards S sector_df today = Ok (leader, laggard) ->
   m_sector (pair leader) = name \/ m_sector (pair laggard) = name ->
   exists e, build_summary S agg_df sector_df = Raise e).
Proof.
  intros Hmiss. pose proof (sector_long_view_no_obs _ _ _ Hmiss) as Hview.
  split; [exact Hview|].
  intros Hmax Hid Hsel. unfold build_summary. rewrite Hmax.
  destruct (iat0 (value_on agg_df today)) as [latest|e]; simpl; [|eauto].
  destruct (iat0 (value_on agg_df (today - 7))) as [prior|e]; simpl; [|eauto].
  destruct (iat0 (value_on agg_df (today - 28))) as [prev|e]; simpl; [|eauto].
  destruct (seasonal_means (Series (map a_value agg_df)) (map a_date agg_df))
    as [nat_seasonal|e]; simpl; [|eauto].
  rewrite Hid. simpl.
  destruct Hsel as [Hl|Hl].
  - rewrite Hl, Hview. simpl. eauto.
  - destruct (sector_long_view sector_df (m_sector (pair leader)) today)
      as [lead_view|e]; simpl; [|eauto].
    rewrite Hl, Hview. simpl. eauto.
Qed.

Lemma sector_long_view_missing_witness :
  sector_long_view
    [ {| s_label := 0; s_date := dt_date 2025 7 25; s_sector := "Tech"; s_index := 40 |};
      {| s_label := 1; s_date := dt_date 2025 8 1;  s_sector := "Tech"; s_index := 50 |} ]
    "Tech" (dt_date 2025 8 1) = Raise IndexError /\
  exists e,
    build_summary stable_sorter
      [ {| a_label := 0; a_date := dt_date 2025 7 4;  a_value := 101 |};
        {| a_label := 1; a_date := dt_date 2025 7 25; a_value := 103 |};
        {| a_label := 2; a_date := dt_date 2025 8 1;  a_value := 105 |} ]
      [ {| s_label := 0; s_date := dt_date 2025 7 25; s_sector := "Tech"; s_index := 40 |};
        {| s_label := 1; s_date := dt_date 2025 8 1;  s_sector := "Tech"; s_index := 50 |} ]
    = Raise e.
Proof.
  destruct (sector_long_view_missing stable_sorter
    [ {| a_label := 0; a_date := dt_date 2025 7 4;  a_value := 101 |};
      {| a_label := 1; a_date := dt_date 2025 7 25; a_value := 103 |};
      {| a_label := 2; a_date := dt_date 2025 8 1;  a_value := 105 |} ]
    [ {| s_label := 0; s_date := dt_date 2025 7 25; s_sector := "Tech"; s_index := 40 |};
      {| s_label := 1; s_date := dt_date 2025 8 1;  s_sector := "Tech"; s_index := 50 |} ]
    "Tech"%string (dt_date 2025 8 1)
    (with_delta (mk_merged_row "Tech" (dt_date 2025 8 1) 50 (dt_date 2025 7 25) 40))
    (with_delta (mk_merged_row "Tech" (dt_date 2025 8 1) 50 (dt_date 2025 7 25) 40))
    (or_intror eq_refl)) as [H1 H2].
  split.
  - exact H1.
  - apply H2.
    + reflexivity.
    + reflexivity.
    + left. reflexivity.
Defined.

Lemma fold_left_max_spec (rest : list Z) (acc : Z) :
  In (fold_left Z.max rest acc) (acc :: rest) /\
  forall d, In d (acc :: rest) -> d <= fold_left Z.max rest acc.
Proof.
  revert acc. induction rest as [|x rest IH]; intros acc; simpl.
  - split; [left; reflexivity|]. intros d [<-|[]]. lia.
  - destruct (IH (Z.max acc x)) as [Hin Hmax]. split.
    + destruct Hin as [Hin|Hin]; [|right; right; exact Hin].
      rewrite <- Hin.
      destruct (Z.max_spec acc x) as [[_ E]|[_ E]]; rewrite E; auto.
    + intros d [<-|[<-|Hd]].
      * etransitivity; [apply (Z.le_max_l acc x)|]. apply Hmax. left. reflexivity.
      * etransitivity; [apply (Z.le_max_r acc x)|]. apply Hmax. left. reflexivity.
      * apply Hmax. right. exact Hd.
Qed.

Lemma date_max_greatest (dates : list date) (today : date) :
  In today dates -> (forall d, In d dates -> d <= today) ->
  date_max dates = Some today.
Proof.
  intros Hin Hmax. destruct dates as [|d0 rest]; [contradiction|].
  unfold date_max. destruct (fold_left_max_spec rest d0) as [Hm Hge].
  apply (f_equal Some). apply Z.le_antisymm.
  - apply Hmax. exact Hm.
  - apply Hge. exact Hin.
Qed.

Lemma value_on_unique (agg_df : agg_frame) (r : agg_row) :
  NoDup (map a_date agg_df) -> In r agg_df ->
  value_on agg_df (a_date r) = [a_value r].
Proof.
  unfold value_on. induction agg_df as [|r0 agg_df IH]; simpl; intros ND Hin.
  - contradiction.
  - inversion ND as [|? ? Hnin ND']; subst.
    destruct Hin as [Hin|Hin].
    + subst r0. rewrite Z.eqb_refl. simpl. f_equal.
      rewrite filter_nil; [reflexivity|].
      intros x Hx. destruct (a_date x =? a_date r) eqn:E; [|reflexivity].
      apply Z.eqb_eq in E. exfalso. apply Hnin. rewrite <- E. apply in_map. exact Hx.
    + destruct (a_date r0 =? a_date r) eqn:E.
      * apply Z.eqb_eq in E. exfalso. apply Hnin. rewrite E. apply in_map. exact Hin.
      * apply IH; assumption.
Qed.

Lemma seasonal_loop_series_ok (seasons : season_table) (values : list Q)
    (dates : list date) (out : dict fval) :
  length values = length dates ->
  exists out', seasonal_loop seasons (Series values) dates out = Ok out'.
Proof.
  intros Hlen. revert out.
  induction seasons as [|[name w] rest IH]; intros out; simpl.
  - eauto.
  - destruct (mask_any (map (in_window w) dates)); [|apply IH].
    unfold getitem_mask. simpl column_length.
    rewrite length_map, Hlen, Nat.eqb_refl. simpl. apply IH.
Qed.

(** On the national side [build_summary] is right.  Let the national
    series have distinct dates, [today] be the greatest of them, and
    its values at [today], seven days before and 28 days before be 105,
    103 and 101.  A summary that is returned is anchored on [today],
    for the national figures and for every sector computation, with a
    week-over-week change of 2 and a four-week change of 4.  A run
    fails only where the selection of the leader and laggard fails or
    where the long view of the leader, or else of the laggard, fails,
    and with that error; and it returns a summary whenever these three
    steps succeed. *)
Theorem build_summary_anchor (S : Sorter) (agg_df : agg_frame)
    (sector_df : sector_frame) (today : date) (r0 r1 r2 : agg_row) :
  NoDup (map a_date agg_df) ->
  (forall d, In d (map a_date agg_df) -> d <= today) ->
  In r0 agg_df -> a_date r0 = today -> (a_value r0 == 105)%Q ->
  In r1 agg_df -> a_date r1 = today - 7 -> (a_value r1 == 103)%Q ->
  In r2 agg_df -> a_date r2 = today - 28 -> (a_value r2 == 101)%Q ->
  (forall s, build_summary S agg_df sector_df = Ok s ->
     sm_today s = today /\
     (sm_delta_pp s == 2)%Q /\ (sm_delta_month s == 4)%Q /\
     compute_breadth sector_df today = Ok (sm_breadth_pct s, sm_n_sector s) /\
     identify_leaders_laggards S sector_df today
       = Ok (sm_leader s, sm_laggard s) /\
     sector_long_view sector_df (m_sector (pair (sm_leader s))) today
       = Ok (sm_lead_view s) /\
     sector_long_view sector_df (m_sector (pair (sm_laggard s))) today
       = Ok (sm_lag_view s)) /\
  (forall e, build_summary S agg_df sector_df = Raise e ->
     identify_leaders_laggards S sector_df today = Raise e \/
     exists leader laggard,
       identify_leaders_laggards S sector_df today = Ok (leader, laggard) /\
       (sector_long_view sector_df (m_sector (pair leader)) today = Raise e \/
        exists lead_view,
          sector_long_view sector_df (m_sector (pair leader)) today
            = Ok lead_view /\
          sector_long_view sector_df (m_sector (pair laggard)) today
            = Raise e)) /\
  (forall leader laggard lead_view lag_view,
     identify_leaders_laggards S sector_df today = Ok (leader, laggard) ->
     sector_long_view sector_df (m_sector (pair leader)) today = Ok lead_view ->
     sector_long_view sector_df (m_sector (pair laggard)) today = Ok lag_view ->
     exists s, build_summary S agg_df sector_df = Ok s).
Proof.
  intros ND Hmax H0 D0 V0 H1 D1 V1 H2 D2 V2.
  assert (Hd : date_max (map a_date agg_df) = Some today).
  { apply date_max_greatest; [|exact Hmax]. rewrite <- D0. apply in_map. exact H0. }
  pose proof (value_on_unique agg_df r0 ND H0) as L0. rewrite D0 in L0.
  pose proof (value_on_unique agg_df r1 ND H1) as L1. rewrite D1 in L1.
  pose proof (value_on_unique agg_df r2 ND H2) as L2. rewrite D2 in L2.
  destruct (seasonal_loop_series_ok SEASONS (map a_value agg_df)
              (map a_date agg_df) []) as [nat_seasonal Hs].
  { rewrite !length_map. reflexivity. }
  unfold build_summary. rewrite Hd, L0, L1, L2.
  unfold seasonal_means, seasonal_means_in. rewrite Hs.
  cbn [iat0 bind compute_breadth].
  destruct (identify_leaders_laggards S sector_df today) as [[leader laggard]|e0]
    eqn:Ei; cbn [bind].
  2:{ split; [intros s H; discriminate H|]. split.
      - intros e H. left. inversion H. reflexivity.
      - intros ld lg v1 v2 H. discriminate H. }
  destruct (sector_long_view sector_df (m_sector (pair leader)) today)
    as [lead_view|e1] eqn:E1; cbn [bind].
  2:{ split; [intros s H; discriminate H|]. split.
      - intros e H. right. exists leader, laggard. split; [reflexivity|].
        left. inversion H; subst. exact E1.
      - intros ld lg v1 v2 H Hv. inversion H; subst ld lg.
        rewrite E1 in Hv. discriminate Hv. }
  destruct (sector_long_view sector_df (m_sector (pair laggard)) today)
    as [lag_view|e2] eqn:E2; cbn [bind].
  2:{ split; [intros s H; discriminate H|]. split.
      - intros e H. right. exists leader, laggard. split; [reflexivity|].
        right. exists lead_view. split; [exact E1|].
        inversion H; subst. exact E2.
      - intros ld lg v1 v2 H _ Hv. inversion H; subst ld lg.
        rewrite E2 in Hv. discriminate Hv. }
  split; [|split; [intros e H; discriminate H|eauto]].
  intros s H. inversion H; subst s; clear H. cbn.
  repeat split; try assumption.
  - unfold pct_point_change. rewrite V0, V1. reflexivity.
  - unfold pct_point_change. rewrite V0, V2. reflexivity.
Qed.

Lemma build_summary_anchor_witness :
  exists s,
    build_summary stable_sorter national_august sectors_august = Ok s /\
    sm_today s = dt_date 2025 8 1 /\
    (sm_delta_pp s == 2)%Q /\ (sm_delta_month s == 4)%Q /\
    m_sector (pair (sm_leader s)) = "Tech"%string /\
    m_sector (pair (sm_laggard s)) = "Retail"%string.
Proof.
  destruct (build_summary_anchor stable_sorter national_august sectors_august
              (dt_date 2025 8 1)
              {| a_label := 2; a_date := dt_date 2025 8 1;  a_value := 105 |}
              {| a_label := 1; a_date := dt_date 2025 7 25; a_value := 103 |}
              {| a_label := 0; a_date := dt_date 2025 7 4;  a_value := 101 |})
    as [Hok _].
  - repeat (constructor; [simpl; intuition discriminate|]). constructor.
  - intros d Hd. simpl in Hd.
    destruct Hd as [Hd|[Hd|[Hd|[]]]]; subst d; vm_compute; discriminate.
  - right; right; left; reflexivity.
  - reflexivity.
  - reflexivity.
  - right; left; reflexivity.
  - reflexivity.
  - reflexivity.
  - left; reflexivity.
  - reflexivity.
  - reflexivity.
  - eexists. split; [reflexivity|].
    destruct (Hok _ eq_refl) as [A [B [C _]]].
    repeat split; try assumption.
Defined.

(** * Further properties *)

(** ** identify_leaders_laggards: edge cases and what it returns *)

Lemma take_nil {A : Type} (positions : list nat) : take (@nil A) positions = [].
Proof.
  unfold take. induction positions as [|i positions IH]; simpl.
  - reflexivity.
  - destruct i; simpl; exact IH.
Qed.

(** With no sector observed on both dates there is no first row to
    take: [identify_leaders_laggards] raises IndexError. *)
Theorem identify_leaders_laggards_no_pairs (S : Sorter) (df : sector_frame)
    (today : date) :
  aligned_sectors df today = [] ->
  identify_leaders_laggards S df today = Raise IndexError.
Proof.
  intros H. unfold identify_leaders_laggards. fold (week_pairs df today).
  rewrite (no_aligned_no_pairs df today H). unfold sort_values. simpl map.
  rewrite take_nil. reflexivity.
Qed.

Lemma identify_leaders_laggards_no_pairs_witness :
  identify_leaders_laggards stable_sorter
    [ {| s_label := 0; s_date := dt_date 2025 5 1;
         s_sector := "Tech"; s_index := 50 |} ]
    (dt_date 2025 5 1) = Raise IndexError.
Proof.
  apply (identify_leaders_laggards_no_pairs stable_sorter
           [ {| s_label := 0; s_date := dt_date 2025 5 1;
                s_sector := "Tech"; s_index := 50 |} ]
           (dt_date 2025 5 1)).
  reflexivity.
Defined.

Lemma identify_inv (S : Sorter) (df : sector_frame) (today : date)
    (leader laggard : delta_row) :
  identify_leaders_laggards S df today = Ok (leader, laggard) ->
  exists r1 r2,
    sort_values S false (map with_delta (week_pairs df today)) = leader :: r1 /\
    sort_values S true (map with_delta (week_pairs df today)) = laggard :: r2.
Proof.
  unfold identify_leaders_laggards. fold (week_pairs df today).
  destruct (sort_values S false (map with_delta (week_pairs df today)))
    as [|x r1]; simpl; [discriminate|].
  destruct (sort_values S true (map with_delta (week_pairs df today)))
    as [|y r2]; simpl; [discriminate|].
  intros H. inversion H; subst. eauto.
Qed.

Lemma identify_in_pairs (S : Sorter) (df : sector_frame) (today : date)
    (leader laggard : delta_row) :
  identify_leaders_laggards S df today = Ok (leader, laggard) ->
  In leader (map with_delta (week_pairs df today)) /\
  In laggard (map with_delta (week_pairs df today)) /\
  forall r, In r (map with_delta (week_pairs df today)) ->
    (delta_pp r <= delta_pp leader)%Q /\ (delta_pp laggard <= delta_pp r)%Q.
Proof.
  intros H. apply identify_inv in H. destruct H as [r1 [r2 [E1 E2]]].
  apply sort_values_head in E1, E2.
  destruct E1 as [In1 Max]. destruct E2 as [In2 Min].
  repeat split; try assumption.
  - apply (Max r). assumption.
  - apply (Min r). assumption.
Qed.

(** The frame holds an observation of the sector at that level on the date. *)
Definition observed (df : sector_frame) (name : string) (d : date) (v : Q) : Prop :=
  exists r, In r df /\ s_sector r = name /\ s_date r = d /\ s_index r = v.

(** What a returned row is made of. *)
Definition week_row (df : sector_frame) (today : date) (r : delta_row) : Prop :=
  date_new (pair r) = today /\
  date_old (pair r) = today - 7 /\
  delta_pp r = pct_point_change (index_new (pair r)) (index_old (pair r)) /\
  observed df (m_sector (pair r)) today (index_new (pair r)) /\
  observed df (m_sector (pair r)) (today - 7) (index_old (pair r)).

Lemma week_pairs_week_row (df : sector_frame) (today : date) (r : delta_row) :
  In r (map with_delta (week_pairs df today)) -> week_row df today r.
Proof.
  intros H. apply in_map_iff in H. destruct H as [g [Hr Hg]]. subst r.
  apply in_week_pairs in Hg.
  destruct Hg as [a [b [Ha [Da [Hb [Db [E Hg]]]]]]]. subst g.
  unfold week_row, observed. simpl. repeat split.
  - exact Da.
  - exact Db.
  - exists a. auto.
  - exists b. auto.
Qed.

(** The two rows [identify_leaders_laggards] returns are aligned pairs
    of the frame: dated [today] and seven days before, carrying levels
    the frame holds for their sector on those dates, with [delta_pp]
    the difference of the two; and the laggard's delta is never above
    the leader's. *)
Theorem identify_leaders_laggards_rows (S : Sorter) (df : sector_frame)
    (today : date) (leader laggard : delta_row) :
  identify_leaders_laggards S df today = Ok (leader, laggard) ->
  week_row df today leader /\ week_row df today laggard /\
  (delta_pp laggard <= delta_pp leader)%Q.
Proof.
  intros H. apply identify_in_pairs in H. destruct H as [In1 [In2 Hext]].
  repeat split.
  1-5: apply (week_pairs_week_row df today leader In1).
  1-5: apply (week_pairs_week_row df today laggard In2).
  apply (Hext laggard In2).
Qed.

Lemma identify_leaders_laggards_rows_witness :
  week_row sectors_august (dt_date 2025 8 1)
    (with_delta (mk_merged_row "Tech" (dt_date 2025 8 1) 50 (dt_date 2025 7 25) 40)) /\
  week_row sectors_august (dt_date 2025 8 1)
    (with_delta (mk_merged_row "Retail" (dt_date 2025 8 1) 30 (dt_date 2025 7 25) 35)) /\
  (-5 <= 10)%Q.
Proof.
  apply (identify_leaders_laggards_rows stable_sorter sectors_august
           (dt_date 2025 8 1)
           (with_delta (mk_merged_row "Tech" (dt_date 2025 8 1) 50 (dt_date 2025 7 25) 40))
           (with_delta (mk_merged_row "Retail" (dt_date 2025 8 1) 30 (dt_date 2025 7 25) 35))).
  reflexivity.
Defined.

(** [identify_leaders_laggards] reads only the observations dated at
    the anchor date or seven days before, in their frame order: two
    frames that list the same such observations give the same leader
    and laggard, whatever their other rows and their row labels. *)
Theorem identify_leaders_laggards_week_only (S : Sorter) (df1 df2 : sector_frame)
    (today : date) :
  obs_of_week df1 today = obs_of_week df2 today ->
  identify_leaders_laggards S df1 today = identify_leaders_laggards S df2 today.
Proof.
  intros H. unfold identify_leaders_laggards.
  fold (week_pairs df1 today). fold (week_pairs df2 today).
  rewrite (week_pairs_obs df1 df2 today H). reflexivity.
Qed.

Lemma identify_leaders_laggards_week_only_witness :
  identify_leaders_laggards stable_sorter
    [ {| s_label := 0; s_date := dt_date 2025 4 24; s_sector := "Tech"; s_index := 40 |};
      {| s_label := 1; s_date := dt_date 2025 5 1;  s_sector := "Tech"; s_index := 50 |} ]
    (dt_date 2025 5 1) =
  identify_leaders_laggards stable_sorter
    [ {| s_label := 7; s_date := dt_date 2025 4 3;  s_sector := "Tech"; s_index := 99 |};
      {| s_label := 8; s_date := dt_date 2025 4 24; s_sector := "Tech"; s_index := 40 |};
      {| s_label := 9; s_date := dt_date 2025 5 1;  s_sector := "Tech"; s_index := 50 |} ]
    (dt_date 2025 5 1).
Proof.
  apply (identify_leaders_laggards_week_only stable_sorter
    [ {| s_label := 0; s_date := dt_date 2025 4 24; s_sector := "Tech"; s_index := 40 |};
      {| s_label := 1; s_date := dt_date 2025 5 1;  s_sector := "Tech"; s_index := 50 |} ]
    [ {| s_label := 7; s_date := dt_date 2025 4 3;  s_sector := "Tech"; s_index := 99 |};
      {| s_label := 8; s_date := dt_date 2025 4 24; s_sector := "Tech"; s_index := 40 |};
      {| s_label := 9; s_date := dt_date 2025 5 1;  s_sector := "Tech"; s_index := 50 |} ]
    (dt_date 2025 5 1)).
  reflexivity.
Defined.

(** ** compute_breadth: the two ends of the scale *)

Lemma filter_length_zero {A : Type} (f : A -> bool) (l : list A) :
  length (filter f l) = 0%nat <-> forall x, In x l -> f x = false.
Proof.
  induction l as [|x l IH]; simpl.
  - split; [intros _ y []|reflexivity].
  - destruct (f x) eqn:E; simpl.
    + split; [discriminate|]. intros H.
      specialize (H x (or_introl eq_refl)). congruence.
    + rewrite IH. split.
      * intros H y [<-|Hy]; auto.
      * intros H y Hy. apply H. right. exact Hy.
Qed.

Lemma filter_length_all {A : Type} (f : A -> bool) (l : list A) :
  length (filter f l) = length l <-> forall x, In x l -> f x = true.
Proof.
  induction l as [|x l IH]; simpl.
  - split; [intros _ y []|reflexivity].
  - pose proof (filter_length_le f l) as Hle.
    destruct (f x) eqn:E; simpl.
    + split.
      * intros H y [<-|Hy]; [exact E|]. apply IH; [lia|exact Hy].
      * intros H. f_equal. apply IH. intros y Hy. apply H. right. exact Hy.
    + split; [lia|]. intros H.
      specialize (H x (or_introl eq_refl)). congruence.
Qed.

Lemma is_gain_lt (g : merged_row) :
  is_gain g = true <-> (index_old g < index_new g)%Q.
Proof.
  unfold is_gain. destruct (Qle_bool (index_new g) (index_old g)) eqn:E; simpl.
  - apply Qle_bool_iff in E. split; [discriminate|].
    intros H. exfalso. apply (Qlt_irrefl (index_old g)).
    eapply Qlt_le_trans; eassumption.
  - split; [|reflexivity]. intros _.
    destruct (Qlt_le_dec (index_old g) (index_new g)) as [L|L]; [exact L|].
    apply Qle_bool_iff in L. congruence.
Qed.

Lemma is_gain_le (g : merged_row) :
  is_gain g = false <-> (index_new g <= index_old g)%Q.
Proof.
  unfold is_gain. destruct (Qle_bool (index_new g) (index_old g)) eqn:E; simpl.
  - apply Qle_bool_iff in E. tauto.
  - split; [discriminate|]. intros H. apply Qle_bool_iff in H. congruence.
Qed.

Lemma share_scaled (k n : nat) :
  (0 < n)%nat ->
  (inject_Z (Z.of_nat k) / inject_Z (Z.of_nat n) * 100 * inject_Z (Z.of_nat n)
   == inject_Z (100 * Z.of_nat k))%Q.
Proof.
  intros Hn. rewrite inject_Z_mult. change (inject_Z 100) with 100%Q. field.
  intros Z0. pose proof (inject_nat_pos n Hn) as P.
  rewrite Z0 in P. apply (Qlt_irrefl 0). exact P.
Qed.

Lemma share_zero (k n : nat) :
  (0 < n)%nat ->
  (inject_Z (Z.of_nat k) / inject_Z (Z.of_nat n) * 100 == 0)%Q <-> k = 0%nat.
Proof.
  intros Hn. split.
  - intros H. pose proof (share_scaled k n Hn) as E.
    rewrite H, Qmult_0_l in E. change 0%Q with (inject_Z 0) in E.
    apply (proj1 (inject_Z_injective _ _)) in E. lia.
  - intros ->. simpl Z.of_nat. change (inject_Z 0) with 0%Q.
    unfold Qdiv. rewrite !Qmult_0_l. reflexivity.
Qed.

Lemma share_full (k n : nat) :
  (0 < n)%nat ->
  (inject_Z (Z.of_nat k) / inject_Z (Z.of_nat n) * 100 == 100)%Q <-> k = n.
Proof.
  intros Hn. split.
  - intros H. pose proof (share_scaled k n Hn) as E.
    rewrite H in E. change 100%Q with (inject_Z 100) in E.
    rewrite <- inject_Z_mult in E.
    apply (proj1 (inject_Z_injective _ _)) in E. lia.
  - intros ->. field.
    intros Z0. pose proof (inject_nat_pos n Hn) as P.
    rewrite Z0 in P. apply (Qlt_irrefl 0). exact P.
Qed.

Lemma compute_breadth_inv (df : sector_frame) (today : date) (p : Q) (n : nat) :
  compute_breadth df today = Ok (Num p, n) ->
  (0 < n)%nat /\ n = length (week_pairs df today) /\
  p = (inject_Z (Z.of_nat (length (filter is_gain (week_pairs df today))))
       / inject_Z (Z.of_nat n) * 100)%Q.
Proof.
  rewrite compute_breadth_counts. intros H. injection H as Hp Hn. subst n.
  unfold breadth_of in Hp.
  destruct (length (week_pairs df today)) as [|n']; [discriminate|].
  injection Hp as Hp.
  split; [lia|]. split; [reflexivity|]. symmetry. exact Hp.
Qed.

Lemma breadth_ends (df : sector_frame) (today : date) (p : Q) (n : nat) :
  compute_breadth df today = Ok (Num p, n) ->
  ((p == 0)%Q <->
     forall g, In g (week_pairs df today) -> (index_new g <= index_old g)%Q) /\
  ((p == 100)%Q <->
     forall g, In g (week_pairs df today) -> (index_old g < index_new g)%Q).
Proof.
  intros H. apply compute_breadth_inv in H. destruct H as [Hn [En Ep]].
  subst p. split.
  - rewrite (share_zero _ n Hn), filter_length_zero.
    split; intros H g Hg; apply is_gain_le, H, Hg.
  - rewrite (share_full _ n Hn), En, filter_length_all.
    split; intros H g Hg; apply is_gain_lt, H, Hg.
Qed.

(** A defined breadth is 0 exactly when no compared sector rose
    strictly (a flat sector does not count as expanding), and 100
    exactly when every compared sector rose strictly. *)
Theorem compute_breadth_extremes (df : sector_frame) (today : date)
    (p : Q) (n : nat) :
  compute_breadth df today = Ok (Num p, n) ->
  ((p == 0)%Q <->
     forall g, In g (week_pairs df today) -> (index_new g <= index_old g)%Q) /\
  ((p == 100)%Q <->
     forall g, In g (week_pairs df today) -> (index_old g < index_new g)%Q).
Proof.
  exact (breadth_ends df today p n).
Qed.

Lemma compute_breadth_extremes_witness :
  ((100 # 1 == 0)%Q <->
     forall g, In g (week_pairs
       [ {| s_label := 0; s_date := dt_date 2025 4 24; s_sector := "Tech"; s_index := 40 |};
         {| s_label := 1; s_date := dt_date 2025 5 1;  s_sector := "Tech"; s_index := 50 |} ]
       (dt_date 2025 5 1)) -> (index_new g <= index_old g)%Q) /\
  ((100 # 1 == 100)%Q <->
     forall g, In g (week_pairs
       [ {| s_label := 0; s_date := dt_date 2025 4 24; s_sector := "Tech"; s_index := 40 |};
         {| s_label := 1; s_date := dt_date 2025 5 1;  s_sector := "Tech"; s_index := 50 |} ]
       (dt_date 2025 5 1)) -> (index_old g < index_new g)%Q).
Proof.
  apply (compute_breadth_extremes
    [ {| s_label := 0; s_date := dt_date 2025 4 24; s_sector := "Tech"; s_index := 40 |};
      {| s_label := 1; s_date := dt_date 2025 5 1;  s_sector := "Tech"; s_index := 50 |} ]
    (dt_date 2025 5 1) (100 # 1) 1%nat).
  reflexivity.
Defined.

(** The breadth and the movers agree: with the same frame and anchor
    date, the breadth is positive exactly when the leader's delta is
    positive, and below 100 exactly when the laggard's delta is zero or
    negative. *)
Theorem breadth_agrees_with_movers (S : Sorter) (df : sector_frame)
    (today : date) (p : Q) (n : nat) (leader laggard : delta_row) :
  compute_breadth df today = Ok (Num p, n) ->
  identify_leaders_laggards S df today = Ok (leader, laggard) ->
  ((0 < p)%Q <-> (0 < delta_pp leader)%Q) /\
  ((p < 100)%Q <-> (delta_pp laggard <= 0)%Q).
Proof.
  intros Hb Hi.
  destruct (breadth_ends df today p n Hb) as [Z0 Z100].
  apply compute_breadth_inv in Hb. destruct Hb as [Hn [En Ep]].
  assert (Hk : (length (filter is_gain (week_pairs df today)) <= n)%nat).
  { rewrite En. apply filter_length_le. }
  destruct (share_bounds _ n Hn Hk) as [Hlo Hhi]. rewrite <- Ep in Hlo, Hhi.
  apply identify_in_pairs in Hi. destruct Hi as [In1 [In2 Hext]].
  assert (D : forall g, (0 < delta_pp (with_delta g))%Q <->
                        (index_old g < index_new g)%Q).
  { intros g. unfold with_delta. simpl. split; intros H.
    - apply Qlt_minus_iff. exact H.
    - apply Qlt_minus_iff in H. exact H. }
  assert (D' : forall g, (delta_pp (with_delta g) <= 0)%Q <->
                         (index_new g <= index_old g)%Q).
  { intros g. split; intros H.
    - apply Qnot_lt_le. intros L. apply D in L.
      apply (Qlt_irrefl 0). eapply Qlt_le_trans; eassumption.
    - apply Qnot_lt_le. intros L. apply D in L.
      apply (Qlt_irrefl (index_old g)). eapply Qlt_le_trans; eassumption. }
  split; split.
  - intros Hp. apply Qnot_le_lt. intros Hle.
    assert (E : (p == 0)%Q).
    { apply Z0. intros g Hg. apply D'.
      eapply Qle_trans; [|exact Hle].
      apply (Hext (with_delta g)). apply in_map. exact Hg. }
    rewrite E in Hp. apply (Qlt_irrefl 0). exact Hp.
  - intros Hd. apply Qnot_le_lt. intros Hle.
    assert (E : (p == 0)%Q) by (apply Qle_antisym; assumption).
    apply in_map_iff in In1. destruct In1 as [g [Eg Hg]]. subst leader.
    apply D in Hd. apply (proj1 Z0 E) in Hg.
    apply (Qlt_irrefl (index_old g)). eapply Qlt_le_trans; eassumption.
  - intros Hp. apply Qnot_lt_le. intros Hd.
    assert (E : (p == 100)%Q).
    { apply Z100. intros g Hg. apply D.
      eapply Qlt_le_trans; [exact Hd|].
      apply (Hext (with_delta g)). apply in_map. exact Hg. }
    rewrite E in Hp. apply (Qlt_irrefl 100). exact Hp.
  - intros Hd. apply Qnot_le_lt. intros Hle.
    assert (E : (p == 100)%Q) by (apply Qle_antisym; assumption).
    apply in_map_iff in In2. destruct In2 as [g [Eg Hg]]. subst laggard.
    apply D' in Hd. apply (proj1 Z100 E) in Hg.
    apply (Qlt_irrefl (index_old g)). eapply Qlt_le_trans; eassumption.
Qed.

Lemma breadth_agrees_with_movers_witness :
  ((0 < 100 # 2)%Q <-> (0 < 10)%Q) /\ ((100 # 2 < 100)%Q <-> (-5 <= 0)%Q).
Proof.
  apply (breadth_agrees_with_movers stable_sorter sectors_august
           (dt_date 2025 8 1) (100 # 2) 2%nat
           (with_delta (mk_merged_row "Tech" (dt_date 2025 8 1) 50 (dt_date 2025 7 25) 40))
           (with_delta (mk_merged_row "Retail" (dt_date 2025 8 1) 30 (dt_date 2025 7 25) 35))).
  - reflexivity.
  - reflexivity.
Defined.

(** ** build_summary: what a returned summary holds, and when none is returned *)

Lemma build_summary_inv (S : Sorter) (agg_df : agg_frame)
    (sector_df : sector_frame) (s : Summary) :
  build_summary S agg_df sector_df = Ok s ->
  exists prior prev_month,
    date_max (map a_date agg_df) = Some (sm_today s) /\
    iat0 (value_on agg_df (sm_today s)) = Ok (sm_latest s) /\
    iat0 (value_on agg_df (sm_today s - 7)) = Ok prior /\
    iat0 (value_on agg_df (sm_today s - 28)) = Ok prev_month /\
    sm_delta_pp s = pct_point_change (sm_latest s) prior /\
    sm_delta_month s = pct_point_change (sm_latest s) prev_month /\
    compute_breadth sector_df (sm_today s)
      = Ok (sm_breadth_pct s, sm_n_sector s) /\
    seasonal_means (Series (map a_value agg_df)) (map a_date agg_df)
      = Ok (sm_nat_seasonal s) /\
    identify_leaders_laggards S sector_df (sm_today s)
      = Ok (sm_leader s, sm_laggard s) /\
    sector_long_view sector_df (m_sector (pair (sm_leader s))) (sm_today s)
      = Ok (sm_lead_view s) /\
    sector_long_view sector_df (m_sector (pair (sm_laggard s))) (sm_today s)
      = Ok (sm_lag_view s).
Proof.
  unfold build_summary.
  destruct (date_max (map a_date agg_df)) as [today|] eqn:Ed; [|discriminate].
  destruct (iat0 (value_on agg_df today)) as [latest|] eqn:L0; cbn [bind]; [|discriminate].
  destruct (iat0 (value_on agg_df (today - 7))) as [prior|] eqn:L1; cbn [bind];
    [|discriminate].
  destruct (iat0 (value_on agg_df (today - 28))) as [prev_month|] eqn:L2; cbn [bind];
    [|discriminate].
  cbn [compute_breadth bind].
  destruct (seasonal_means (Series (map a_value agg_df)) (map a_date agg_df))
    as [nat_seasonal|] eqn:Es; cbn [bind]; [|discriminate].
  destruct (identify_leaders_laggards S sector_df today)
    as [[leader laggard]|] eqn:Ei; cbn [bind]; [|discriminate].
  destruct (sector_long_view sector_df (m_sector (pair leader)) today)
    as [lead_view|] eqn:E1; cbn [bind]; [|discriminate].
  destruct (sector_long_view sector_df (m_sector (pair laggard)) today)
    as [lag_view|] eqn:E2; cbn [bind]; [|discriminate].
  intros H. inversion H; subst s; clear H. cbn.
  exists prior, prev_month. repeat split; assumption || reflexivity.
Qed.

(** A summary is returned only with a usable breadth: at least one
    sector compared and a defined breadth between 0 and 100.  (With no
    aligned pair the undefined breadth of [compute_breadth] never
    reaches the report, because the leader selection fails first.) *)
Theorem build_summary_breadth_defined (S : Sorter) (agg_df : agg_frame)
    (sector_df : sector_frame) (s : Summary) :
  build_summary S agg_df sector_df = Ok s ->
  (0 < sm_n_sector s)%nat /\
  exists p, sm_breadth_pct s = Num p /\ (0 <= p)%Q /\ (p <= 100)%Q.
Proof.
  intros H. apply build_summary_inv in H.
  destruct H as [prior [prev [_ [_ [_ [_ [_ [_ [Hb [_ [Hi _]]]]]]]]]]].
  apply identify_in_pairs in Hi. destruct Hi as [In1 _].
  rewrite compute_breadth_counts in Hb. injection Hb as Hp Hn.
  assert (Hpos : (0 < length (week_pairs sector_df (sm_today s)))%nat).
  { destruct (week_pairs sector_df (sm_today s)); [contradiction|simpl; lia]. }
  split; [lia|].
  pose proof (filter_length_le is_gain (week_pairs sector_df (sm_today s))) as Hk.
  destruct (share_bounds _ _ Hpos Hk) as [Hlo Hhi].
  unfold breadth_of in Hp.
  destruct (length (week_pairs sector_df (sm_today s))) as [|n']; [lia|].
  eexists. split; [symmetry; exact Hp|]. split; assumption.
Qed.

Lemma build_summary_breadth_defined_witness :
  (0 < 2)%nat /\
  exists p, Num (100 # 2) = Num p /\ (0 <= p)%Q /\ (p <= 100)%Q.
Proof.
  apply (build_summary_breadth_defined stable_sorter national_august sectors_august
    {| sm_today := dt_date 2025 8 1; sm_latest := 105;
       sm_delta_pp := 2; sm_delta_month := 4;
       sm_breadth_pct := Num (100 # 2); sm_n_sector := 2;
       sm_nat_seasonal := [];
       sm_leader :=
         with_delta (mk_merged_row "Tech" (dt_date 2025 8 1) 50 (dt_date 2025 7 25) 40);
       sm_lead_view := (50%Q, 12%Q, []);
       sm_laggard :=
         with_delta (mk_merged_row "Retail" (dt_date 2025 8 1) 30 (dt_date 2025 7 25) 35);
       sm_lag_view := (30%Q, (-3)%Q, []) |}).
  reflexivity.
Defined.

Lemma value_on_absent (agg_df : agg_frame) (d : date) :
  ~ In d (map a_date agg_df) -> value_on agg_df d = [].
Proof.
  intros H. unfold value_on. rewrite filter_nil; [reflexivity|].
  intros r Hr. destruct (a_date r =? d) eqn:E; [|reflexivity].
  apply Z.eqb_eq in E. exfalso. apply H. rewrite <- E. apply in_map. exact Hr.
Qed.

(** No national observation, or none dated seven days, or 28 days,
    before the latest national date: [build_summary] raises IndexError,
    whatever the sector frame holds. *)
Theorem build_summary_national_gap (S : Sorter) (agg_df : agg_frame)
    (sector_df : sector_frame) (today : date) :
  agg_df = [] \/
  (In today (map a_date agg_df) /\
   (forall d, In d (map a_date agg_df) -> d <= today) /\
   (~ In (today - 7) (map a_date agg_df) \/
    ~ In (today - 28) (map a_date agg_df))) ->
  build_summary S agg_df sector_df = Raise IndexError.
Proof.
  intros [->|[Hin [Hmax Hgap]]]; [reflexivity|].
  unfold build_summary. rewrite (date_max_greatest _ today Hin Hmax).
  destruct (iat0 (value_on agg_df today)) as [latest|e] eqn:E0; cbn [bind].
  2:{ destruct (value_on agg_df today); inversion E0. reflexivity. }
  destruct Hgap as [H7|H28].
  - rewrite (value_on_absent agg_df (today - 7) H7). reflexivity.
  - rewrite (value_on_absent agg_df (today - 28) H28).
    destruct (iat0 (value_on agg_df (today - 7))) as [prior|e] eqn:E1; cbn [bind].
    + reflexivity.
    + destruct (value_on agg_df (today - 7)); inversion E1. reflexivity.
Qed.

Lemma build_summary_national_gap_witness :
  build_summary stable_sorter
    [ {| a_label := 0; a_date := dt_date 2025 7 4; a_value := 101 |};
      {| a_label := 1; a_date := dt_date 2025 8 1; a_value := 105 |} ]
    sectors_august = Raise IndexError.
Proof.
  apply (build_summary_national_gap stable_sorter
    [ {| a_label := 0; a_date := dt_date 2025 7 4; a_value := 101 |};
      {| a_label := 1; a_date := dt_date 2025 8 1; a_value := 105 |} ]
    sectors_august (dt_date 2025 8 1)).
  right. split; [right; left; reflexivity|]. split.
  - intros d Hd. simpl in Hd.
    destruct Hd as [Hd|[Hd|[]]]; subst d; vm_compute; discriminate.
  - left. simpl. intros [H|[H|[]]]; vm_compute in H; discriminate H.
Defined.

(** The national series of an aggregate frame, as (date, value) points. *)
Definition national_points (agg_df : agg_frame) : time_series :=
  map (fun r => (a_date r, a_value r)) agg_df.

(** In a returned summary the national seasonal means are right: each
    configured season with a national observation inside its window
    maps to the mean of the national values observed in the window,
    and a season without one is absent. *)
Theorem build_summary_national_seasonal (S : Sorter) (agg_df : agg_frame)
    (sector_df : sector_frame) (s : Summary) :
  build_summary S agg_df sector_df = Ok s ->
  forall name w, In (name, w) SEASONS ->
    dict_get (sm_nat_seasonal s) name =
    match window_points w (national_points agg_df) with
    | [] => None
    | sel => Some (Num (arith_mean (map snd sel)))
    end.
Proof.
  intros H name w Hw. apply build_summary_inv in H.
  destruct H as [prior [prev [_ [_ [_ [_ [_ [_ [_ [Hs _]]]]]]]]]].
  destruct (seasonal_loop_series SEASONS (national_points agg_df)
              SEASONS_names_distinct []) as [out [Hrun Hget]].
  assert (Ev : map snd (national_points agg_df) = map a_value agg_df)
    by (unfold national_points; rewrite map_map; reflexivity).
  assert (Et : map fst (national_points agg_df) = map a_date agg_df)
    by (unfold national_points; rewrite map_map; reflexivity).
  rewrite Ev, Et in Hrun.
  unfold seasonal_means, seasonal_means_in in Hs.
  rewrite Hs in Hrun. inversion Hrun; subst out.
  rewrite Hget, (dict_get_present SEASONS name w SEASONS_names_distinct Hw).
  reflexivity.
Qed.

(** A national series that reaches back into "Spring 2025" while the
    anchor and the sector rows lie past every window. *)
Definition national_spring : agg_frame :=
  [ {| a_label := 0; a_date := dt_date 2025 5 1;  a_value := 99 |};
    {| a_label := 1; a_date := dt_date 2025 5 8;  a_value := 97 |};
    {| a_label := 2; a_date := dt_date 2025 7 4;  a_value := 101 |};
    {| a_label := 3; a_date := dt_date 2025 7 25; a_value := 103 |};
    {| a_label := 4; a_date := dt_date 2025 8 1;  a_value := 105 |} ].

Lemma build_summary_national_seasonal_witness :
  exists s,
    build_summary stable_sorter national_spring sectors_august = Ok s /\
    forall name w, In (name, w) SEASONS ->
      dict_get (sm_nat_seasonal s) name =
      match window_points w (national_points national_spring) with
      | [] => None
      | sel => Some (Num (arith_mean (map snd sel)))
      end.
Proof.
  eexists. split; [reflexivity|].
  apply (build_summary_national_seasonal stable_sorter national_spring
           sectors_august).
  reflexivity.
Defined.

(** ** seasonal_means: the whole mapping *)

Definition season_observed (pts : time_series) (nw : string * (date * date)) : bool :=
  match window_points (snd nw) pts with
  | [] => false
  | _ :: _ => true
  end.

Definition season_entry (pts : time_series) (nw : string * (date * date))
    : string * fval :=
  (fst nw, Num (arith_mean (map snd (window_points (snd nw) pts)))).

Definition in_some_window (seasons : season_table) (p : date * Q) : bool :=
  existsb (fun nw => in_window (snd nw) (fst p)) seasons.

Lemma dict_set_fresh {V : Type} (d : dict V) (k : string) (v : V) :
  ~ In k (map fst d) -> dict_set d k v = d ++ [(k, v)].
Proof.
  induction d as [|[k0 v0] d IH]; simpl; intros H.
  - reflexivity.
  - destruct (String.eqb k0 k) eqn:E.
    + apply String.eqb_eq in E. tauto.
    + rewrite IH by tauto. reflexivity.
Qed.

Lemma seasonal_loop_closed (seasons : season_table) (pts : time_series) :
  NoDup (map fst seasons) ->
  forall out,
    (forall n, In n (map fst seasons) -> ~ In n (map fst out)) ->
    seasonal_loop seasons (Series (map snd pts)) (map fst pts) out =
    Ok (out ++ map (season_entry pts) (filter (season_observed pts) seasons)).
Proof.
  induction seasons as [|[n0 w0] rest IH]; intros ND out Hfresh.
  - simpl. rewrite app_nil_r. reflexivity.
  - inversion ND as [|? ? Hnin ND']; subst.
    cbn [seasonal_loop filter]. rewrite mask_any_window.
    unfold season_observed at 1. cbn [snd].
    destruct (window_points w0 pts) as [|p sel] eqn:Hsel.
    + apply IH; [exact ND'|].
      intros n Hn. apply Hfresh. right. exact Hn.
    + unfold getitem_mask. simpl column_length.
      rewrite !length_map, Nat.eqb_refl. cbn [bind].
      rewrite select_window, Hsel. cbn [column_mean bind].
      rewrite dict_set_fresh by (apply Hfresh; left; reflexivity).
      rewrite IH; [|exact ND'|].
      * rewrite <- app_assoc. cbn [map app]. unfold season_entry at 2.
        cbn [fst snd]. rewrite Hsel. reflexivity.
      * intros n Hn Hin. rewrite map_app in Hin. apply in_app_or in Hin.
        destruct Hin as [Hin|[Hin|[]]].
        -- apply (Hfresh n); [right; exact Hn|exact Hin].
        -- simpl in Hin. subst n. apply Hnin. exact Hn.
Qed.

(** [seasonal_means] returns exactly the seasons that have a point in
    their window, each with the mean of its points, listed in the order
    of the season table (the order in which the report prints them). *)
Theorem seasonal_means_in_table_order (seasons : season_table)
    (pts : time_series) :
  NoDup (map fst seasons) ->
  seasonal_means_in seasons (Series (map snd pts)) (map fst pts) =
  Ok (map (season_entry pts) (filter (season_observed pts) seasons)).
Proof.
  intros ND. unfold seasonal_means_in.
  rewrite (seasonal_loop_closed seasons pts ND []); [reflexivity|].
  intros n _ [].
Qed.

Lemma seasonal_means_in_table_order_witness :
  seasonal_means_in SEASONS
    (Series (map snd [(dt_date 2025 5 1, 50%Q); (dt_date 2024 7 4, 40%Q)]))
    (map fst [(dt_date 2025 5 1, 50%Q); (dt_date 2024 7 4, 40%Q)]) =
  Ok (map (season_entry [(dt_date 2025 5 1, 50%Q); (dt_date 2024 7 4, 40%Q)])
          (filter (season_observed [(dt_date 2025 5 1, 50%Q); (dt_date 2024 7 4, 40%Q)])
                  SEASONS)).
Proof.
  apply (seasonal_means_in_table_order SEASONS
           [(dt_date 2025 5 1, 50%Q); (dt_date 2024 7 4, 40%Q)]).
  exact SEASONS_names_distinct.
Defined.

Lemma filter_filter_implied {A : Type} (f g : A -> bool) (l : list A) :
  (forall x, f x = true -> g x = true) ->
  filter f (filter g l) = filter f l.
Proof.
  intros H. induction l as [|x l IH]; simpl; [reflexivity|].
  destruct (g x) eqn:G; simpl.
  - rewrite IH. reflexivity.
  - destruct (f x) eqn:F; [|exact IH].
    apply H in F. congruence.
Qed.

Lemma seasonal_loop_windows (seasons : season_table) (pts pts' : time_series) :
  (forall nw, In nw seasons ->
     window_points (snd nw) pts = window_points (snd nw) pts') ->
  forall out,
    seasonal_loop seasons (Series (map snd pts)) (map fst pts) out =
    seasonal_loop seasons (Series (map snd pts')) (map fst pts') out.
Proof.
  induction seasons as [|[n0 w0] rest IH]; intros H out; [reflexivity|].
  cbn [seasonal_loop]. rewrite !mask_any_window.
  pose proof (H (n0, w0) (or_introl eq_refl)) as H0. cbn [snd] in H0.
  assert (Hrest : forall nw, In nw rest ->
            window_points (snd nw) pts = window_points (snd nw) pts')
    by (intros nw Hnw; apply H; right; exact Hnw).
  rewrite <- H0. destruct (window_points w0 pts) as [|p sel] eqn:Hsel.
  - apply IH. exact Hrest.
  - unfold getitem_mask. simpl column_length.
    rewrite !length_map, !Nat.eqb_refl. cbn [bind].
    rewrite !select_window, <- H0, Hsel. cbn [column_mean bind].
    apply IH. exact Hrest.
Qed.

(** Observations dated outside every window of the table do not count:
    [seasonal_means] gives the same mapping when they are removed from
    the series. *)
Theorem seasonal_means_ignores_outside (seasons : season_table)
    (pts : time_series) :
  seasonal_means_in seasons (Series (map snd pts)) (map fst pts) =
  seasonal_means_in seasons
    (Series (map snd (filter (in_some_window seasons) pts)))
    (map fst (filter (in_some_window seasons) pts)).
Proof.
  unfold seasonal_means_in. apply seasonal_loop_windows.
  intros nw Hnw. unfold window_points. symmetry.
  apply filter_filter_implied. intros p Hp.
  unfold in_some_window. apply existsb_exists. exists nw. split; [exact Hnw|].
  exact Hp.
Qed.

(** The configured windows split the span from 2024-06-21 to 2025-06-20
    without gap or overlap: a date of that span lies in one window, a
    date outside it in none, and no date lies in two windows, so no
    observation is counted in two seasonal means. *)
Theorem SEASONS_partition (d : date) :
  (dt_date 2024 6 21 <= d <= dt_date 2025 6 20 <->
   exists name w, In (name, w) SEASONS /\ in_window w d = true) /\
  (forall n1 w1 n2 w2,
     In (n1, w1) SEASONS -> In (n2, w2) SEASONS ->
     in_window w1 d = true -> in_window w2 d = true -> n1 = n2).
Proof.
  assert (E : SEASONS =
    [ ("Summer 2024"%string, (739058, 739149));
      ("Fall 2024"%string, (739150, 739240));
      ("Winter 2024-25"%string, (739241, 739329));
      ("Spring 2025"%string, (739330, 739422)) ]) by reflexivity.
  rewrite E.
  change (dt_date 2024 6 21) with 739058. change (dt_date 2025 6 20) with 739422.
  assert (W : forall a b, in_window (a, b) d = true <-> a <= d <= b).
  { intros a b. unfold in_window. cbn [fst snd].
    rewrite andb_true_iff, !Z.leb_le. reflexivity. }
  split; [split|].
  - intros H.
    destruct (Z_le_gt_dec d 739149); [exists "Summer 2024"%string, (739058, 739149)|].
    { split; [simpl; auto|]. apply W. lia. }
    destruct (Z_le_gt_dec d 739240); [exists "Fall 2024"%string, (739150, 739240)|].
    { split; [simpl; auto|]. apply W. lia. }
    destruct (Z_le_gt_dec d 739329); [exists "Winter 2024-25"%string, (739241, 739329)|].
    { split; [simpl; auto 6|]. apply W. lia. }
    exists "Spring 2025"%string, (739330, 739422).
    split; [simpl; auto 6|]. apply W. lia.
  - intros [name [w [Hin Hw]]]. simpl in Hin.
    destruct Hin as [Hin|[Hin|[Hin|[Hin|[]]]]]; inversion Hin; subst;
      apply W in Hw; lia.
  - intros n1 w1 n2 w2 H1 H2 W1 W2. simpl in H1, H2.
    destruct H1 as [H1|[H1|[H1|[H1|[]]]]]; inversion H1; subst;
      destruct H2 as [H2|[H2|[H2|[H2|[]]]]]; inversion H2; subst;
      try reflexivity; apply W in W1; apply W in W2; lia.
Qed.

(** ** sector_long_view: what it returns, and when *)

Lemma has_obs_first_row (df : sector_frame) (name : string) (d : date) :
  has_obs df name d = true ->
  exists r rest,
    date_is (sector_is df name) d = r :: rest /\
    In r df /\ s_sector r = name /\ s_date r = d.
Proof.
  intros H. apply has_obs_true in H. destruct H as [r [Hin [Hs Hd]]].
  assert (Hr : In r (date_is (sector_is df name) d)).
  { apply in_date_is. split; [|exact Hd].
    apply filter_In. split; [exact Hin|]. apply String.eqb_eq. exact Hs. }
  destruct (date_is (sector_is df name) d) as [|x rest] eqn:E; [contradiction|].
  exists x, rest. split; [reflexivity|].
  assert (Hx : In x (date_is (sector_is df name) d)) by (rewrite E; left; reflexivity).
  apply in_date_is in Hx. destruct Hx as [Hx Dx].
  apply filter_In in Hx. destruct Hx as [Hx Sx]. apply String.eqb_eq in Sx. auto.
Qed.

Lemma mask_any_dates (w : date * date) (dates : list date) :
  mask_any (map (in_window w) dates) = true <->
  exists d, In d dates /\ in_window w d = true.
Proof.
  unfold mask_any. rewrite existsb_exists. split.
  - intros [b [Hb E]]. apply in_map_iff in Hb. destruct Hb as [d [Hd Hin]].
    exists d. split; [exact Hin|]. congruence.
  - intros [d [Hd E]]. exists true. split; [|reflexivity].
    rewrite <- E. apply in_map. exact Hd.
Qed.

Lemma seasonal_loop_index_raise (seasons : season_table) (labels : list Z)
    (dates : list date) (out : dict fval) :
  length labels = length dates ->
  (exists nw d, In nw seasons /\ In d dates /\ in_window (snd nw) d = true) ->
  seasonal_loop seasons (Index labels) dates out = Raise AttributeError.
Proof.
  intros Hlen. revert out.
  induction seasons as [|[n0 w0] rest IH]; intros out [nw [d [Hnw [Hd Hw]]]].
  - contradiction.
  - cbn [seasonal_loop].
    destruct (mask_any (map (in_window w0) dates)) eqn:M.
    + unfold getitem_mask. simpl column_length.
      rewrite length_map, Hlen, Nat.eqb_refl. reflexivity.
    + apply IH. destruct Hnw as [Hnw|Hnw].
      * subst nw. cbn [snd] in Hw.
        assert (T : mask_any (map (in_window w0) dates) = true)
          by (apply mask_any_dates; exists d; auto).
        congruence.
      * exists nw, d. auto.
Qed.

Lemma seasonal_loop_index_quiet (seasons : season_table) (labels : list Z)
    (dates : list date) (out : dict fval) :
  (forall nw d, In nw seasons -> In d dates -> in_window (snd nw) d = false) ->
  seasonal_loop seasons (Index labels) dates out = Ok out.
Proof.
  revert out. induction seasons as [|[n0 w0] rest IH]; intros out H.
  - reflexivity.
  - cbn [seasonal_loop].
    destruct (mask_any (map (in_window w0) dates)) eqn:M.
    + apply mask_any_dates in M. destruct M as [d [Hd Hw]].
      pose proof (H (n0, w0) d (or_introl eq_refl) Hd) as F.
      cbn [snd] in F. congruence.
    + apply IH. intros nw d Hnw Hd. apply H; [right; exact Hnw|exact Hd].
Qed.

(** For a sector observed at the anchor date and 28 days before,
    [sector_long_view] has two outcomes.  If a row of the sector is
    dated inside a configured window, it raises AttributeError (the
    seasonal mean is asked of the frame's row labels).  Otherwise it
    returns a level the frame holds for the sector at the anchor date,
    its difference with a level held 28 days before, and an empty
    seasonal mapping. *)
Theorem sector_long_view_outcomes (df : sector_frame) (name : string)
    (today : date) :
  has_obs df name today = true ->
  has_obs df name (today - 28) = true ->
  ((exists r n w, In r df /\ s_sector r = name /\
                  In (n, w) SEASONS /\ in_window w (s_date r) = true) ->
   sector_long_view df name today = Raise AttributeError) /\
  ((forall r n w, In r df -> s_sector r = name -> In (n, w) SEASONS ->
                  in_window w (s_date r) = false) ->
   exists current prev_month,
     sector_long_view df name today
       = Ok (current, pct_point_change current prev_month, []) /\
     observed df name today current /\
     observed df name (today - 28) prev_month).
Proof.
  intros H0 H28.
  destruct (has_obs_first_row df name today H0) as [r0 [rest0 [E0 [I0 [S0 D0]]]]].
  destruct (has_obs_first_row df name (today - 28) H28)
    as [r1 [rest1 [E1 [I1 [S1 D1]]]]].
  unfold sector_long_view. rewrite E0, E1. cbn [map iat0 bind].
  unfold seasonal_means, seasonal_means_in. split.
  - intros [r [n [w [Hr [Hs [Hw Hin]]]]]].
    rewrite seasonal_loop_index_raise; [reflexivity|rewrite !length_map; reflexivity|].
    exists (n, w), (s_date r). split; [exact Hw|]. split; [|exact Hin].
    apply in_map. apply filter_In. split; [exact Hr|].
    apply String.eqb_eq. exact Hs.
  - intros Hout. rewrite seasonal_loop_index_quiet.
    + cbn [bind]. exists (s_index r0), (s_index r1).
      split; [reflexivity|]. split; [exists r0|exists r1]; auto.
    + intros [n w] d Hnw Hd. apply in_map_iff in Hd.
      destruct Hd as [r [Hd Hr]]. subst d.
      apply filter_In in Hr. destruct Hr as [Hr Hs]. apply String.eqb_eq in Hs.
      apply (Hout r n w); assumption.
Qed.

Lemma sector_long_view_outcomes_witness :
  sector_long_view
    [ {| s_label := 0; s_date := dt_date 2025 4 3; s_sector := "Tech"; s_index := 40 |};
      {| s_label := 1; s_date := dt_date 2025 5 1; s_sector := "Tech"; s_index := 50 |} ]
    "Tech" (dt_date 2025 5 1) = Raise AttributeError.
Proof.
  destruct (sector_long_view_outcomes
    [ {| s_label := 0; s_date := dt_date 2025 4 3; s_sector := "Tech"; s_index := 40 |};
      {| s_label := 1; s_date := dt_date 2025 5 1; s_sector := "Tech"; s_index := 50 |} ]
    "Tech"%string (dt_date 2025 5 1) eq_refl eq_refl) as [Hraise _].
  apply Hraise.
  exists {| s_label := 1; s_date := dt_date 2025 5 1; s_sector := "Tech"; s_index := 50 |},
         "Spring 2025"%string, (dt_date 2025 3 20, dt_date 2025 6 20).
  split; [right; left; reflexivity|]. split; [reflexivity|].
  split; [right; right; right; left; reflexivity|reflexivity].
Defined.

Lemma iat0_level (df : sector_frame) (name : string) (d : date) (v : Q) :
  level_on df name d = Some v ->
  iat0 (map s_index (date_is (sector_is df name) d)) = Ok v.
Proof.
  unfold level_on. destruct (date_is (sector_is df name) d) as [|r rest]; simpl.
  - discriminate.
  - intros H. inversion H. reflexivity.
Qed.

(** On a frame that keeps the invariant (per sector, no date twice), a
    long view that is returned carries the sector's level at the anchor
    date as [current] and, as [delta_month], that level minus the
    sector's level 28 days before. *)
Theorem sector_long_view_levels (df : sector_frame) (name : string)
    (today : date) (r0 r1 : sector_row) (current delta_month : Q)
    (seasonal : dict fval) :
  unique_dates df ->
  In r0 df -> s_sector r0 = name -> s_date r0 = today ->
  In r1 df -> s_sector r1 = name -> s_date r1 = today - 28 ->
  sector_long_view df name today = Ok (current, delta_month, seasonal) ->
  current = s_index r0 /\ delta_month = (s_index r0 - s_index r1)%Q.
Proof.
  intros U I0 S0 D0 I1 S1 D1.
  pose proof (level_on_unique df r0 U I0) as L0. rewrite S0, D0 in L0.
  pose proof (level_on_unique df r1 U I1) as L1. rewrite S1, D1 in L1.
  unfold sector_long_view.
  rewrite (iat0_level _ _ _ _ L0), (iat0_level _ _ _ _ L1). cbn [bind].
  destruct (seasonal_means (Index (map s_label (sector_is df name)))
                           (map s_date (sector_is df name))); cbn [bind];
    [|discriminate].
  intros H. inversion H. split; reflexivity.
Qed.

Lemma sectors_august_unique : unique_dates sectors_august.
Proof.
  unfold unique_dates.
  repeat (constructor; [simpl; intuition discriminate|]). constructor.
Defined.

Lemma sector_long_view_levels_witness :
  50%Q = 50%Q /\ 12%Q = (50 - 38)%Q.
Proof.
  apply (sector_long_view_levels sectors_august "Tech"%string (dt_date 2025 8 1)
    {| s_label := 5; s_date := dt_date 2025 8 1; s_sector := "Tech"; s_index := 50 |}
    {| s_label := 3; s_date := dt_date 2025 7 4; s_sector := "Tech"; s_index := 38 |}
    50%Q 12%Q []).
  - exact sectors_august_unique.
  - simpl; auto 10.
  - reflexivity.
  - reflexivity.
  - simpl; auto 10.
  - reflexivity.
  - reflexivity.
  - reflexivity.
Defined.

Lemma index_column_obs (rows : sector_frame) (d : date) :
  map s_index (date_is rows d) =
  map snd (filter (fun o => fst (fst o) =? d) (map obs rows)).
Proof.
  unfold date_is. induction rows as [|r rows IH]; [reflexivity|].
  cbn [map filter obs fst]. destruct (s_date r =? d); cbn [map snd];
    rewrite IH; reflexivity.
Qed.

Lemma seasonal_loop_index_labels (seasons : season_table) (l1 l2 : list Z)
    (dates : list date) (out : dict fval) :
  length l1 = length l2 ->
  seasonal_loop seasons (Index l1) dates out =
  seasonal_loop seasons (Index l2) dates out.
Proof.
  intros Hlen. revert out.
  induction seasons as [|[n0 w0] rest IH]; intros out; [reflexivity|].
  cbn [seasonal_loop].
  destruct (mask_any (map (in_window w0) dates)); [|apply IH].
  unfold getitem_mask. simpl column_length. rewrite Hlen.
  destruct (Nat.eqb (length l2) (length (map (in_window w0) dates))); reflexivity.
Qed.

(** [sector_long_view] reads the named sector only: two frames that
    list the same observations for that sector give the same outcome,
    whatever rows they hold for other sectors and whatever the row
    labels. *)
Theorem sector_long_view_sector_only (df1 df2 : sector_frame) (name : string)
    (today : date) :
  map obs (sector_is df1 name) = map obs (sector_is df2 name) ->
  sector_long_view df1 name today = sector_long_view df2 name today.
Proof.
  intros H. unfold sector_long_view.
  rewrite !index_column_obs, H.
  assert (Hd : map s_date (sector_is df1 name) = map s_date (sector_is df2 name)).
  { transitivity (map (fun o : date * string * Q => fst (fst o))
                      (map obs (sector_is df1 name))).
    - rewrite map_map. reflexivity.
    - rewrite H, map_map. reflexivity. }
  assert (Hl : length (map s_label (sector_is df1 name)) =
               length (map s_label (sector_is df2 name))).
  { rewrite !length_map, <- (length_map obs (sector_is df1 name)), H.
    apply length_map. }
  unfold seasonal_means, seasonal_means_in.
  rewrite Hd, (seasonal_loop_index_labels SEASONS _ _ _ [] Hl). reflexivity.
Qed.

Lemma sector_long_view_sector_only_witness :
  sector_long_view sectors_august "Tech" (dt_date 2025 8 1) =
  sector_long_view
    [ {| s_label := 10; s_date := dt_date 2025 7 4;  s_sector := "Tech"; s_index := 38 |};
      {| s_label := 11; s_date := dt_date 2025 7 25; s_sector := "Tech"; s_index := 40 |};
      {| s_label := 12; s_date := dt_date 2025 8 1;  s_sector := "Energy"; s_index := 7 |};
      {| s_label := 13; s_date := dt_date 2025 8 1;  s_sector := "Tech"; s_index := 50 |} ]
    "Tech" (dt_date 2025 8 1).
Proof.
  apply (sector_long_view_sector_only sectors_august
    [ {| s_label := 10; s_date := dt_date 2025 7 4;  s_sector := "Tech"; s_index := 38 |};
      {| s_label := 11; s_date := dt_date 2025 7 25; s_sector := "Tech"; s_index := 40 |};
      {| s_label := 12; s_date := dt_date 2025 8 1;  s_sector := "Energy"; s_index := 7 |};
      {| s_label := 13; s_date := dt_date 2025 8 1;  s_sector := "Tech"; s_index := 50 |} ]
    "Tech"%string (dt_date 2025 8 1)).
  reflexivity.
Defined.

Lemma sector_long_view_current (df : sector_frame) (name : string)
    (today : date) (v : Q) (view : Q * Q * dict fval) :
  unique_dates df ->
  observed df name today v ->
  sector_long_view df name today = Ok view ->
  fst (fst view) = v.
Proof.
  intros U [r [Hr [Hs [Hd Hv]]]].
  pose proof (level_on_unique df r U Hr) as L. rewrite Hs, Hd, Hv in L.
  unfold sector_long_view. rewrite (iat0_level _ _ _ _ L). cbn [bind].
  destruct (iat0 (map s_index (date_is (sector_is df name) (today - 28))));
    cbn [bind]; [|discriminate].
  destruct (seasonal_means (Index (map s_label (sector_is df name)))
                           (map s_date (sector_is df name))); cbn [bind];
    [|discriminate].
  intros H. inversion H. reflexivity.
Qed.

(** The figures of a mover are consistent: in a summary returned for a
    sector frame that keeps the invariant, the level reported in the
    leader's long view is the new level of the leader's pair, and
    likewise for the laggard. *)
Theorem build_summary_mover_levels (S : Sorter) (agg_df : agg_frame)
    (sector_df : sector_frame) (s : Summary) :
  unique_dates sector_df ->
  build_summary S agg_df sector_df = Ok s ->
  fst (fst (sm_lead_view s)) = index_new (pair (sm_leader s)) /\
  fst (fst (sm_lag_view s)) = index_new (pair (sm_laggard s)).
Proof.
  intros U H. apply build_summary_inv in H.
  destruct H as [prior [prev [_ [_ [_ [_ [_ [_ [_ [_ [Hi [V1 V2]]]]]]]]]]]].
  apply identify_in_pairs in Hi. destruct Hi as [In1 [In2 _]].
  apply week_pairs_week_row in In1, In2.
  destruct In1 as [_ [_ [_ [O1 _]]]]. destruct In2 as [_ [_ [_ [O2 _]]]].
  split.
  - exact (sector_long_view_current _ _ _ _ _ U O1 V1).
  - exact (sector_long_view_current _ _ _ _ _ U O2 V2).
Qed.

Lemma build_summary_mover_levels_witness :
  exists s,
    build_summary stable_sorter national_august sectors_august = Ok s /\
    fst (fst (sm_lead_view s)) = index_new (pair (sm_leader s)) /\
    fst (fst (sm_lag_view s)) = index_new (pair (sm_laggard s)).
Proof.
  eexists. split; [reflexivity|].
  apply (build_summary_mover_levels stable_sorter national_august sectors_august).
  - exact sectors_august_unique.
  - reflexivity.
Defined.

(** ** build_summary on an anchor inside the season windows *)

Lemma sector_long_view_season_row (df : sector_frame) (name : string)
    (today : date) (r : sector_row) (n : string) (w : date * date)
    (view : Q * Q * dict fval) :
  In r df -> s_sector r = name ->
  In (n, w) SEASONS -> in_window w (s_date r) = true ->
  sector_long_view df name today <> Ok view.
Proof.
  intros Hr Hs Hw Hin. unfold sector_long_view.
  destruct (iat0 (map s_index (date_is (sector_is df name) today)));
    cbn [bind]; [|discriminate].
  destruct (iat0 (map s_index (date_is (sector_is df name) (today - 28))));
    cbn [bind]; [|discriminate].
  unfold seasonal_means, seasonal_means_in.
  rewrite seasonal_loop_index_raise.
  - discriminate.
  - rewrite !length_map. reflexivity.
  - exists (n, w), (s_date r). split; [exact Hw|]. split; [|exact Hin].
    apply in_map. apply filter_In. split; [exact Hr|].
    apply String.eqb_eq. exact Hs.
Qed.

Lemma SEASONS_cover (d : date) :
  dt_date 2024 6 21 <= d <= dt_date 2025 6 20 ->
  exists n w, In (n, w) SEASONS /\ in_window w d = true.
Proof.
  change (dt_date 2024 6 21) with 739058. change (dt_date 2025 6 20) with 739422.
  intros H.
  assert (W : forall a b, a <= d <= b -> in_window (a, b) d = true).
  { intros a b Hab. unfold in_window. cbn [fst snd].
    apply andb_true_iff. rewrite !Z.leb_le. exact Hab. }
  destruct (Z_le_gt_dec d 739149).
  { exists "Summer 2024"%string, (739058, 739149).
    split; [left; reflexivity|]. apply W. lia. }
  destruct (Z_le_gt_dec d 739240).
  { exists "Fall 2024"%string, (739150, 739240).
    split; [right; left; reflexivity|]. apply W. lia. }
  destruct (Z_le_gt_dec d 739329).
  { exists "Winter 2024-25"%string, (739241, 739329).
    split; [right; right; left; reflexivity|]. apply W. lia. }
  exists "Spring 2025"%string, (739330, 739422).
  split; [right; right; right; left; reflexivity|]. apply W. lia.
Qed.

(** No summary is ever returned for an anchor date from 2024-06-21 to
    2025-06-20: the leader has a row at the anchor date, that date lies
    in a season window, and the long view of the leader fails. *)
Lemma build_summary_not_in_season_span (S : Sorter) (agg_df : agg_frame)
    (sector_df : sector_frame) (s : Summary) :
  build_summary S agg_df sector_df = Ok s ->
  ~ (dt_date 2024 6 21 <= sm_today s <= dt_date 2025 6 20).
Proof.
  intros H Hspan. apply build_summary_inv in H.
  destruct H as [prior [prev [_ [_ [_ [_ [_ [_ [_ [_ [Hi [V1 _]]]]]]]]]]]].
  apply identify_in_pairs in Hi. destruct Hi as [In1 _].
  apply week_pairs_week_row in In1.
  destruct In1 as [_ [_ [_ [[r [Hr [Hs [Hd _]]]] _]]]].
  destruct (SEASONS_cover (sm_today s) Hspan) as [n [w [Hw Hin]]].
  rewrite <- Hd in Hin.
  exact (sector_long_view_season_row _ _ _ r n w _ Hr Hs Hw Hin V1).
Qed.

(** C8 fails on the code.  On scenario A (national 105 on 2025-05-01,
    103 on 2025-04-24, 101 on 2025-04-03, two sectors observed on the
    same dates) [build_summary] returns no summary with a change of
    +2.0 and +4.0: for every sorting routine it raises AttributeError,
    in the long view of the leader, where [seasonal_means] is handed
    the row labels.  The same holds of every input whose anchor date
    lies from 2024-06-21 to 2025-06-20: no summary is returned. *)
Theorem build_summary_scenario_a (S : Sorter) :
  build_summary S scenario_a_national scenario_a_sectors = Raise AttributeError /\
  (forall agg_df sector_df s,
     build_summary S agg_df sector_df = Ok s ->
     ~ (dt_date 2024 6 21 <= sm_today s <= dt_date 2025 6 20)).
Proof.
  split; [|intros agg_df sector_df s; apply build_summary_not_in_season_span].
  destruct (build_summary S scenario_a_national scenario_a_sectors)
    as [s|e] eqn:E.
  - exfalso. apply (build_summary_not_in_season_span _ _ _ _ E).
    apply build_summary_inv in E.
    destruct E as [prior [prev [Hd _]]].
    change (date_max (map a_date scenario_a_national))
      with (Some (dt_date 2025 5 1)) in Hd.
    injection Hd as Ht. rewrite <- Ht. vm_compute.
    split; discriminate.
  - f_equal.
    destruct (build_summary_anchor S scenario_a_national scenario_a_sectors
                (dt_date 2025 5 1)
                {| a_label := 2; a_date := dt_date 2025 5 1;  a_value := 105 |}
                {| a_label := 1; a_date := dt_date 2025 4 24; a_value := 103 |}
                {| a_label := 0; a_date := dt_date 2025 4 3;  a_value := 101 |})
      as [_ [Hfail _]].
    + repeat (constructor; [simpl; intuition discriminate|]). constructor.
    + intros d Hd. simpl in Hd.
      destruct Hd as [Hd|[Hd|[Hd|[]]]]; subst d; vm_compute; discriminate.
    + right; right; left; reflexivity.
    + reflexivity.
    + reflexivity.
    + right; left; reflexivity.
    + reflexivity.
    + reflexivity.
    + left; reflexivity.
    + reflexivity.
    + reflexivity.
    + assert (Hne : map with_delta (week_pairs scenario_a_sectors (dt_date 2025 5 1))
                    <> []) by (vm_compute; discriminate).
      destruct (identify_positions S _ Hne)
        as [i [j [ld0 [lg0 [Hi [Hj [Ni Nj]]]]]]].
      pose proof (identify_at S _ _ i j ld0 lg0 Hi Hj Ni Nj) as Hok.
      destruct (Hfail e E) as [Hr|[leader [laggard [Hid Hv]]]].
      * rewrite Hok in Hr. discriminate Hr.
      * apply identify_in_pairs in Hid. destruct Hid as [In1 [In2 _]].
        vm_compute in In1. vm_compute in In2.
        destruct Hv as [Hv|[lead_view [_ Hv]]].
        -- destruct In1 as [In1|[In1|[]]]; subst leader;
             vm_compute in Hv; inversion Hv; reflexivity.
        -- destruct In2 as [In2|[In2|[]]]; subst laggard;
             vm_compute in Hv; inversion Hv; reflexivity.
Qed.
